(** * Matplotlib sample visualisations: a shallow embedding

    The script [matplotlib_sample.py] prepares a bundle of sample arrays
    with NumPy, draws seven figures with Matplotlib and saves each one to
    a PNG file.  This development embeds the script in Rocq:

    - Python floats and NumPy [float64] arrays are IEEE 754 binary64
      numbers ([PrimFloat.float]) and lists of them;
    - NumPy's global random state, pyplot's figure registry, the heap of
      dict objects, the standard output and the files written are the
      components of an explicit program state, threaded by a state and
      exception monad;
    - the transcendental functions of the C library and the random
      generator's draws are interfaces (type classes), since their bits
      are not fixed by the script;
    - the two curves of the annotated plot are written once over an
      abstract field with [sin], [exp] and [pi] and read both in binary64
      and in the real numbers. *)

From Stdlib Require Import ZArith List String Ascii Reals Lra Floats.
From stdpp Require Import gmap strings list pretty.

Set Default Proof Using "Type".
Set Warnings "-inexact-float,-register-all".
Local Open Scope Z_scope.

(** ** Binary floating point *)

Module Np.

(** Conversion of a Python [int] to a [float64] (round to nearest
    even; exact below [2^53]). *)
Definition of_Z (z : Z) : float :=
  SF2Prim (binary_normalize prec emax z 0 false).

(** The integer [floor x] of a finite number; [None] on infinities and
    NaN. *)
Definition floorZ (x : float) : option Z :=
  match Prim2SF x with
  | S754_zero _ => Some 0
  | S754_finite s m e => Some (Z.shiftl (if s then Z.neg m else Z.pos m) e)
  | _ => None
  end.

(** Python's [int(x)]: truncation toward zero; it raises on infinities
    and NaN. *)
Definition truncZ (x : float) : option Z :=
  match Prim2SF x with
  | S754_zero _ => Some 0
  | S754_finite s m e =>
      let a := Z.shiftl (Z.pos m) e in Some (if s then - a else a)
  | _ => None
  end.

(** [np.floor]: integral values, zeros, infinities and NaN are fixed
    points. *)
Definition floor (x : float) : float :=
  match Prim2SF x with
  | S754_finite s m e =>
      if 0 <=? e then x
      else of_Z (Z.shiftl (if s then Z.neg m else Z.pos m) e)
  | _ => x
  end.

(** C's [fmod]: the exact remainder of the truncated division, with the
    sign of the dividend. *)
Definition fmod (a b : float) : float :=
  match Prim2SF a, Prim2SF b with
  | S754_nan, _ | _, S754_nan => nan
  | S754_infinity _, _ | _, S754_zero _ => nan
  | _, S754_infinity _ | S754_zero _, _ => a
  | S754_finite sa ma ea, S754_finite _ mb eb =>
      let e := Z.min ea eb in
      let r := Z.shiftl (Z.pos ma) (ea - e) mod Z.shiftl (Z.pos mb) (eb - e) in
      let f := Z.ldexp (of_Z r) e in
      if sa then (- f)%float else f
  end.

(** NumPy's remainder [a % b] on floats: [fmod] moved to the sign of
    the divisor. *)
Definition remainder (a b : float) : float :=
  let m := fmod a b in
  if (b =? 0)%float then m
  else if (m =? 0)%float then (if get_sign b then neg_zero else zero)
  else if xorb (b <? 0)%float (m <? 0)%float then (m + b)%float
  else m.

(** [np.arange(0, n)] as floats. *)
Definition arange (n : nat) : list float :=
  (λ i : nat, of_Z (Z.of_nat i)) <$> seq 0 n.

(** [np.linspace(start, stop, num)] with [endpoint=True]: the grid
    [start + i * step] with [step = (stop - start) / (num - 1)], whose
    last point is then overwritten by [stop]. *)
Definition linspace (start stop : float) (num : nat) : list float :=
  let div := Nat.pred num in
  let delta := (stop - start)%float in
  let y := arange num in
  let y :=
    if decide (0 < div)%nat then
      let step := (delta / of_Z (Z.of_nat div))%float in
      if (step =? 0)%float
      then (λ v, v / of_Z (Z.of_nat div) * delta)%float <$> y
      else (λ v, v * step)%float <$> y
    else (λ v, v * delta)%float <$> y in
  let y := (λ v, v + start)%float <$> y in
  if decide (1 < num)%nat then <[Nat.pred num := stop]> y else y.

(** [np.pi], the binary64 number nearest to pi. *)
Definition pi : float := 0x1.921fb54442d18p+1%float.

End Np.

(** ** Strings *)

Module Str.

Definition lower_char (c : ascii) : ascii :=
  let n := nat_of_ascii c in
  if ((65 <=? n) && (n <=? 90))%nat then ascii_of_nat (n + 32) else c.

(** [s.lower()] on ASCII text. *)
Fixpoint lower (s : string) : string :=
  match s with
  | EmptyString => EmptyString
  | String c s' => String (lower_char c) (lower s')
  end.

(** [s.replace(old, new)] for one-character [old] and [new]. *)
Fixpoint replace (old new : ascii) (s : string) : string :=
  match s with
  | EmptyString => EmptyString
  | String c s' =>
      String (if Ascii.eqb c old then new else c) (replace old new s')
  end.

(** [str(z)] and [f'{z}'] for an integer. *)
Definition of_int (z : Z) : string := pretty z.

Definition digit_of (c : ascii) : option Z :=
  let n := nat_of_ascii c in
  if ((48 <=? n) && (n <=? 57))%nat then Some (Z.of_nat (n - 48)) else None.

Fixpoint digits_to_Z (acc : Z) (s : string) : option Z :=
  match s with
  | EmptyString => Some acc
  | String c s' =>
      match digit_of c with
      | Some d => digits_to_Z (10 * acc + d) s'
      | None => None
      end
  end.

(** [int(s)] for a decimal numeral with an optional minus sign. *)
Definition to_int (s : string) : option Z :=
  match s with
  | EmptyString => None
  | String "-" (String c r) => Z.opp <$> digits_to_Z 0 (String c r)
  | String c r => digits_to_Z 0 (String c r)
  end.

Fixpoint zeros (n : nat) : string :=
  match n with O => EmptyString | S k => String "0" (zeros k) end.

(** The nearest integer to [n / d] for [0 < d], ties to even. *)
Definition round_half_even (n d : Z) : Z :=
  let q := n / d in
  match (2 * (n mod d)) ?= d with
  | Lt => q
  | Gt => q + 1
  | Eq => if Z.even q then q else q + 1
  end.

(** The decimal numeral with [p] digits after the point that is
    nearest to the rational [n / d], for [0 ≤ n] and [0 < d]; ties go
    to the even last digit. *)
Definition format_ratio (p : nat) (n d : Z) : string :=
  let scale := 10 ^ Z.of_nat p in
  let k := round_half_even (n * scale) d in
  let frac := pretty (k mod scale) in
  of_int (k / scale) +:+
  match p with
  | O => ""
  | _ => "." +:+ zeros (p - String.length frac) +:+ frac
  end.

(** The fixed-point conversion ['%.<p>f' % x] and [f'{x:.<p>f}'] of a
    binary floating-point number: the numeral of its exact value
    [m * 2^e]. *)
Definition format_f (p : nat) (x : spec_float) : string :=
  let sign (s : bool) : string := if s then "-" else "" in
  match x with
  | S754_nan => "nan"
  | S754_infinity s => sign s +:+ "inf"
  | S754_zero s => sign s +:+ format_ratio p 0 1
  | S754_finite s m e =>
      sign s +:+
      (if 0 <=? e then format_ratio p (Z.shiftl (Z.pos m) e) 1
       else format_ratio p (Z.pos m) (2 ^ (- e)))
  end.

End Str.

(** ** Single precision and ['%'] formatting *)

(** IEEE 754 binary32 ([np.float32]) arithmetic, on the specification
    floats of the standard library. *)
Module F32.
Definition prec : Z := 24.
Definition emax : Z := 128.
Definition of_Z (z : Z) : spec_float := binary_normalize prec emax z 0 false.
(** Rounding of a binary64 number to binary32. *)
Definition of_float (x : float) : spec_float :=
  match Prim2SF x with
  | S754_finite s m e =>
      binary_normalize prec emax (if s then Z.neg m else Z.pos m) e s
  | y => y
  end.
Definition add : spec_float → spec_float → spec_float := SFadd prec emax.
Definition mul : spec_float → spec_float → spec_float := SFmul prec emax.
Definition div : spec_float → spec_float → spec_float := SFdiv prec emax.
Definition ltb : spec_float → spec_float → bool := SFltb.
(** [a.sum()] of a short array: the elements are added from left to
    right (NumPy switches to pairwise blocks from eight elements on). *)
Definition sum (a : list spec_float) : spec_float :=
  foldl add (S754_zero false) a.
End F32.

Module Fmt.

Definition pad_left (w : nat) (s : string) : string :=
  String.concat "" (replicate (w - String.length s) " "%string) +:+ s.

(** Where the scanner of a format string stands: in literal text, after
    a ['%'] (reading the width), or after the point (reading the
    precision). *)
Inductive mode := Lit | Width (w : nat) | Precision (w p : nat).

Definition digit_nat (c : ascii) : option nat := Z.to_nat <$> Str.digit_of c.

(** [fmt % x] for one float argument [x]: the conversions [%%] and
    [%<width>.<precision>f]; [avail] tells whether the argument is
    still to be consumed.  [None] stands for the exceptions Python
    raises (unsupported conversion, too few or too many arguments). *)
Fixpoint scan (m : mode) (avail : bool) (fmt : string) (x : spec_float)
  : option string :=
  match fmt with
  | EmptyString =>
      match m with Lit => if avail then None else Some ""%string | _ => None end
  | String c r =>
      let convert (w p : nat) :=
        if avail
        then (λ t, pad_left w (Str.format_f p x) +:+ t) <$> scan Lit false r x
        else None in
      match m with
      | Lit =>
          if Ascii.eqb c "%" then scan (Width 0) avail r x
          else String c <$> scan Lit avail r x
      | Width w =>
          if Ascii.eqb c "%" then String "%" <$> scan Lit avail r x
          else if Ascii.eqb c "." then scan (Precision w 0) avail r x
          else if Ascii.eqb c "f" then convert w 6%nat
          else match digit_nat c with
               | Some d => scan (Width (10 * w + d)) avail r x
               | None => None
               end
      | Precision w p =>
          if Ascii.eqb c "f" then convert w p
          else match digit_nat c with
               | Some d => scan (Precision w (10 * p + d)) avail r x
               | None => None
               end
      end
  end.

Definition percent (fmt : string) (x : spec_float) : option string :=
  scan Lit true fmt x.

End Fmt.

(** ** The curves of the annotated plot *)

(** The arithmetic the curves are written in. *)
Class Elementary (T : Type) := {
  e_of_Z : Z → T;
  e_opp : T → T;
  e_mul : T → T → T;
  e_div : T → T → T;
  e_sin : T → T;
  e_cos : T → T;
  e_exp : T → T;
  e_pi : T
}.

(** [np.sin(x) * np.exp(-x/5)] *)
Definition damped_sine `{Elementary T} (x : T) : T :=
  e_mul (e_sin x) (e_exp (e_div (e_opp x) (e_of_Z 5))).

(** [np.cos(x) * np.exp(-x/8)] *)
Definition damped_cosine `{Elementary T} (x : T) : T :=
  e_mul (e_cos x) (e_exp (e_div (e_opp x) (e_of_Z 8))).

(** The point the arrow of the annotation ends at:
    [xy=(np.pi/2, np.exp(-np.pi/10))]. *)
Definition arrow_target `{Elementary T} : T * T :=
  (e_div e_pi (e_of_Z 2), e_exp (e_div (e_opp e_pi) (e_of_Z 10))).

(** The reading in the real numbers. *)
#[export] Instance real_elementary : Elementary R := {
  e_of_Z := IZR; e_opp := Ropp; e_mul := Rmult; e_div := Rdiv;
  e_sin := sin; e_cos := cos; e_exp := exp; e_pi := PI
}.

(** ** Interfaces of the libraries *)

(** The elementary functions of the C library behind [np.sin], [np.cos]
    and [np.exp], and NumPy's mean of an array.  Their values are not
    fixed by the script, so the program is embedded over any
    implementation. *)
Class Numpy := {
  np_sin : float → float;
  np_cos : float → float;
  np_exp : float → float;
  np_mean : list float → float;
}.

(** The reading in binary64, as the script computes. *)
#[export] Instance float_elementary `{!Numpy} : Elementary float := {
  e_of_Z := Np.of_Z; e_opp := PrimFloat.opp; e_mul := PrimFloat.mul;
  e_div := PrimFloat.div;
  e_sin := np_sin; e_cos := np_cos; e_exp := np_exp; e_pi := Np.pi
}.

(** NumPy's legacy generator behind [np.random]: seeding, and the two
    primitive draws (a uniform number of [[0, 1)] and a standard normal
    number), each returning the number drawn and the next state. *)
Class RandomState (G : Type) := {
  rk_seed : Z → G;
  rk_double : G → float * G;
  rk_gauss : G → float * G;
}.

(** [n] successive draws; the state is threaded from one draw to the
    next. *)
Fixpoint draws {G} (draw : G → float * G) (n : nat) (g : G) : list float * G :=
  match n with
  | O => ([], g)
  | S k =>
      let r := draw g in
      let rs := draws draw k (snd r) in
      (fst r :: fst rs, snd rs)
  end.

(** ** Python values, figures and the program state *)

(** The objects stored in the data bundle. *)
Inductive pyobj :=
  | PyArr (a : list float)      (* a NumPy array of float64 *)
  | PyInts (l : list Z)         (* a list of int *)
  | PyStrs (l : list string).   (* a list of str *)

(** Keyword arguments of a drawing call, kept as written. *)
Inductive kwval :=
  | KInt (z : Z)
  | KNum (x : float)
  | KStr (s : string)
  | KBool (b : bool)
  | KStrs (l : list string)
  | KArr (a : list float)
  | KDict (d : list (string * kwval)).

Abbreviation kwargs := (list (string * kwval)).

Record rectangle := {
  rect_x : float; rect_y : float; rect_width : float; rect_height : float
}.

Record text := {
  text_x : float; text_y : float; text_str : string; text_props : kwargs
}.

(** A wedge of a pie: its fraction of the disc (a binary32 number, as
    Matplotlib computes it), its label and its percentage text. *)
Record wedge := {
  wedge_frac : spec_float; wedge_label : string;
  wedge_autotext : string; wedge_autoprops : kwargs
}.

(** What an axes holds: the drawing calls made on it, in order. *)
Inductive call :=
  | Plot (x y : list float) (fmt : option string) (kw : kwargs)
  | Step (x y : list float) (fmt : option string) (kw : kwargs)
  | Scatter (x y : list float) (kw : kwargs)
  | Bar (bars : list rectangle) (kw : kwargs)
  | Hist (data : list float) (kw : kwargs)
  | Pie (wedges : list wedge) (kw : kwargs)
  | AddText (t : text)
  | Annotate (s : string) (xy xytext : float * float) (kw : kwargs)
  | FillBetween (x y1 y2 : list float) (kw : kwargs)
  | AxVLine (x : float) (kw : kwargs)
  | SetTitle (s : string) (kw : kwargs)
  | SetXLabel (s : string) (kw : kwargs)
  | SetYLabel (s : string) (kw : kwargs)
  | Legend (kw : kwargs)
  | Grid (b : bool) (kw : kwargs)
  | SetXLim (lo hi : float)
  | SetYLim (lo hi : float)
  | ColorbarOf (mappable : nat * nat * nat)
  | SetLabel (s : string) (kw : kwargs).

Record figure := {
  fig_size : float * float;
  fig_axes : list (list call);
  fig_suptitle : option (string * kwargs);
  fig_tight : bool
}.

(** A file written by [savefig]. *)
Record savefile := {
  save_name : string; save_fig : nat; save_dpi : Z; save_bbox : string
}.

Inductive exn :=
  | KeyError (k : string)
  | TypeError (msg : string)
  | ValueError (msg : string)
  | IndexError (msg : string).

(** ** The state and exception monad *)

Section Program.
Context `{!Numpy} {G : Type} `{!RandomState G}.

(** The state of the interpreter that the script can observe or change:
    NumPy's global generator, the dict objects on the heap, pyplot's
    registry of figures (figure [n] of the registry is the one created
    [n]-th, and the last one is the current figure), the lines printed,
    the files written and the figures handed to [plt.show]. *)
Record state := State {
  rng : G;
  heap : gmap nat (gmap string pyobj);
  figs : list figure;
  stdout : list string;
  files : list savefile;
  shown : list nat
}.

Definition M (A : Type) : Type := state → (exn + A) * state.

#[export] Instance M_ret : MRet M := λ A a s, (inr a, s).
#[export] Instance M_bind : MBind M := λ A B k m s,
  match m s with
  | (inl e, s') => (inl e, s')
  | (inr a, s') => k a s'
  end.

Definition raise {A} (e : exn) : M A := λ s, (inl e, s).

Definition get_state : M state := λ s, (inr s, s).

Definition set_rng (g : G) : M unit := λ s,
  (inr (), State g (heap s) (figs s) (stdout s) (files s) (shown s)).
Definition set_heap (h : gmap nat (gmap string pyobj)) : M unit := λ s,
  (inr (), State (rng s) h (figs s) (stdout s) (files s) (shown s)).
Definition set_figs (f : list figure) : M unit := λ s,
  (inr (), State (rng s) (heap s) f (stdout s) (files s) (shown s)).
Definition set_stdout (o : list string) : M unit := λ s,
  (inr (), State (rng s) (heap s) (figs s) o (files s) (shown s)).
Definition set_files (w : list savefile) : M unit := λ s,
  (inr (), State (rng s) (heap s) (figs s) (stdout s) w (shown s)).
Definition set_shown (l : list nat) : M unit := λ s,
  (inr (), State (rng s) (heap s) (figs s) (stdout s) (files s) l).

Definition from_option {A} (e : exn) (o : option A) : M A :=
  match o with Some a => mret a | None => raise e end.

(** [for x in l: body(x)] *)
Fixpoint for_each {A} (l : list A) (body : A → M unit) : M unit :=
  match l with
  | [] => mret ()
  | x :: l' => body x;; for_each l' body
  end.

(** [print(s)] *)
Definition print (line : string) : M unit :=
  s ← get_state; set_stdout (stdout s ++ [line]).

(** *** NumPy's global generator *)

(** [np.random.seed(n)]: the global state is replaced by the state
    seeded with [n]. *)
Definition np_random_seed (n : Z) : M unit := set_rng (rk_seed n).

Definition random_array (draw : G → float * G) (n : nat) : M (list float) :=
  s ← get_state;
  let r := draws draw n (rng s) in
  set_rng (snd r);; mret (fst r).

(** [np.random.randn(n)] *)
Definition np_random_randn (n : nat) : M (list float) :=
  random_array rk_gauss n.

(** [np.random.rand(n)] *)
Definition np_random_rand (n : nat) : M (list float) :=
  random_array rk_double n.

(** [np.random.uniform(low, high, n)]: [low + (high - low) * u] for a
    uniform draw [u]. *)
Definition uniform_draw (low high : float) (g : G) : float * G :=
  let r := rk_double g in ((low + (high - low) * fst r)%float, snd r).

Definition np_random_uniform (low high : float) (n : nat) : M (list float) :=
  random_array (uniform_draw low high) n.

(** [np.random.normal(loc, scale, n)]: [loc + scale * z] for a standard
    normal draw [z]. *)
Definition normal_draw (loc scale : float) (g : G) : float * G :=
  let r := rk_gauss g in ((loc + scale * fst r)%float, snd r).

Definition np_random_normal (loc scale : float) (n : nat) : M (list float) :=
  random_array (normal_draw loc scale) n.

(** Element-wise sum of two arrays of one shape; any other pair of
    shapes is refused here (NumPy would also stretch an array of one
    element). *)
Definition np_add (a b : list float) : M (list float) :=
  if decide (length a = length b)
  then mret (zip_with PrimFloat.add a b)
  else raise (ValueError "operands could not be broadcast together").

(** *** Dict objects *)

(** A dict display [{k1: v1, ...}]: a new object; a later item with the
    key of an earlier one replaces it. *)
Definition new_dict (items : list (string * pyobj)) : M nat :=
  s ← get_state;
  let l := fresh (dom (heap s)) in
  set_heap (<[l := foldl (λ d kv, <[kv.1 := kv.2]> d) ∅ items]> (heap s));;
  mret l.

(** [d[k]] *)
Definition dict_get (d : nat) (k : string) : M pyobj :=
  s ← get_state;
  match heap s !! d with
  | Some o => from_option (KeyError k) (o !! k)
  | None => raise (TypeError "not a dict")
  end.

(** The conversion of an argument to an array of floats that the
    drawing calls perform on their data. *)
Definition as_array (o : pyobj) : M (list float) :=
  match o with
  | PyArr a => mret a
  | PyInts l => mret (Np.of_Z <$> l)
  | PyStrs _ => raise (TypeError "not a numeric sequence")
  end.

Definition as_strings (o : pyobj) : M (list string) :=
  match o with
  | PyStrs l => mret l
  | _ => raise (TypeError "not a sequence of str")
  end.

Definition as_ints (o : pyobj) : M (list Z) :=
  match o with
  | PyInts l => mret l
  | _ => raise (TypeError "not a sequence of int")
  end.

(** *** pyplot and the drawing calls *)

Definition empty_figure (size : float * float) (n : nat) : figure :=
  {| fig_size := size; fig_axes := replicate n [];
     fig_suptitle := None; fig_tight := false |}.

(** [plt.subplots(nrows, ncols, figsize=size)]: a new figure, which
    becomes the current one, with a grid of empty axes.  The result is
    the figure and its axes in row-major order. *)
Definition plt_subplots (nrows ncols : nat) (size : float * float)
  : M (nat * list (nat * nat)) :=
  s ← get_state;
  let n := length (figs s) in
  set_figs (figs s ++ [empty_figure size (nrows * ncols)]);;
  mret (n, (λ k, (n, k)) <$> seq 0 (nrows * ncols)).

(** [fig, ax = plt.subplots(figsize=size)] *)
Definition plt_subplots_single (size : float * float) : M (nat * (nat * nat)) :=
  '(fig, axes) ← plt_subplots 1 1 size;
  ax ← from_option (IndexError "axes") (axes !! 0%nat);
  mret (fig, ax).

(** [axes[r, c]] in a grid of [ncols] columns. *)
Definition axes_at (axes : list (nat * nat)) (ncols r c : nat) : M (nat * nat) :=
  if decide (c < ncols)%nat
  then from_option (IndexError "axes") (axes !! (r * ncols + c)%nat)
  else raise (IndexError "axes").

Definition update_figure (f : nat) (upd : figure → figure) : M unit :=
  s ← get_state;
  match figs s !! f with
  | Some fg => set_figs (<[f := upd fg]> (figs s))
  | None => raise (ValueError "no such figure")
  end.

Definition with_axes (axes : list (list call)) (fg : figure) : figure :=
  {| fig_size := fig_size fg; fig_axes := axes;
     fig_suptitle := fig_suptitle fg; fig_tight := fig_tight fg |}.

(** One drawing call on an axes; the result is the rank of the call on
    that axes, by which the artist it made is referred to later. *)
Definition ax_call (ax : nat * nat) (c : call) : M nat :=
  s ← get_state;
  match figs s !! ax.1 with
  | Some fg =>
      match fig_axes fg !! ax.2 with
      | Some cs =>
          update_figure ax.1 (with_axes (<[ax.2 := cs ++ [c]]> (fig_axes fg)));;
          mret (length cs)
      | None => raise (ValueError "no such axes")
      end
  | None => raise (ValueError "no such figure")
  end.

Definition ax_do (ax : nat * nat) (c : call) : M unit := ax_call ax c;; mret ().

Definition same_length {A B} (a : list A) (b : list B) : M unit :=
  if decide (length a = length b) then mret ()
  else raise (ValueError "x and y must have the same size").

(** [ax.plot(x, y, fmt, **kw)] *)
Definition ax_plot (ax : nat * nat) (x y : list float) (fmt : option string)
    (kw : kwargs) : M unit :=
  same_length x y;; ax_do ax (Plot x y fmt kw).

(** [ax.step(x, y, fmt, **kw)] *)
Definition ax_step (ax : nat * nat) (x y : list float) (fmt : option string)
    (kw : kwargs) : M unit :=
  same_length x y;; ax_do ax (Step x y fmt kw).

(** [ax.scatter(x, y, **kw)]; the result refers to the collection of
    points drawn. *)
Definition ax_scatter (ax : nat * nat) (x y : list float) (kw : kwargs)
  : M (nat * nat * nat) :=
  same_length x y;; i ← ax_call ax (Scatter x y kw); mret (ax, i).

(** [ax.fill_between(x, y1, y2, **kw)] *)
Definition ax_fill_between (ax : nat * nat) (x y1 y2 : list float)
    (kw : kwargs) : M unit :=
  same_length x y1;; same_length x y2;; ax_do ax (FillBetween x y1 y2 kw).

(** The position of a category on the axis: the rank of its first
    occurrence among the categories. *)
Fixpoint category_index (cats : list string) (c : string) : nat :=
  match cats with
  | [] => 0
  | c' :: r => if decide (c' = c) then 0%nat else S (category_index r c)
  end.

(** [ax.bar(x, height, **kw)] for categories [x]: bars of width [0.8]
    centred on the positions of the categories, standing on zero.  The
    result is the bars. *)
Definition ax_bar (ax : nat * nat) (x : list string) (height : list float)
    (kw : kwargs) : M (list rectangle) :=
  same_length x height;;
  let width := 0.8%float in
  let bars :=
    zip_with (λ c h,
      {| rect_x := (Np.of_Z (Z.of_nat (category_index x c)) - width / 2)%float;
         rect_y := 0%float; rect_width := width; rect_height := h |}) x height in
  ax_do ax (Bar bars kw);; mret bars.

(** [ax.text(x, y, s, **kw)] *)
Definition ax_text (ax : nat * nat) (x y : float) (s : string) (kw : kwargs)
  : M unit :=
  ax_do ax (AddText {| text_x := x; text_y := y; text_str := s; text_props := kw |}).

(** The conversion [np.asarray(x, np.float32)] of the sizes of a pie. *)
Definition as_float32 (o : pyobj) : M (list spec_float) :=
  match o with
  | PyArr a => mret (F32.of_float <$> a)
  | PyInts l => mret (F32.of_Z <$> l)
  | PyStrs _ => raise (ValueError "could not convert string to float")
  end.

(** The percentage handed to [autopct]: [100. * frac], a product of
    single precision numbers. *)
Definition pie_percent (frac : spec_float) : spec_float :=
  F32.mul (F32.of_Z 100) frac.

(** [ax.pie(x, labels=labels, autopct=autopct, **kw)]: the sizes are
    taken in single precision, must not be negative, and are divided by
    their sum; each wedge gets its label and the text
    [autopct % (100. * frac)].  The result refers to the percentage
    texts. *)
Definition ax_pie (ax : nat * nat) (x : pyobj) (labels : list string)
    (autopct : string) (kw : kwargs) : M (list (nat * nat * nat * nat)) :=
  x ← as_float32 x;
  same_length x labels;;
  (if existsb (λ v, F32.ltb v (S754_zero false)) x
   then raise (ValueError "Wedge sizes 'x' must be non negative values")
   else mret ());;
  let sx := F32.sum x in
  let fracs := (λ v, F32.div v sx) <$> x in
  autotexts ← from_option (TypeError "autopct")
    (mapM (λ frac, Fmt.percent autopct (pie_percent frac)) fracs);
  let wedges :=
    zip_with (λ fl t,
      {| wedge_frac := fl.1; wedge_label := fl.2;
         wedge_autotext := t; wedge_autoprops := [] |})
      (zip fracs labels) autotexts in
  i ← ax_call ax (Pie wedges kw);
  mret ((λ k, (ax, i, k)) <$> seq 0 (length wedges)).

Definition set_wedge_prop (key : string) (v : kwval) (w : wedge) : wedge :=
  {| wedge_frac := wedge_frac w; wedge_label := wedge_label w;
     wedge_autotext := wedge_autotext w;
     wedge_autoprops := wedge_autoprops w ++ [(key, v)] |}.

(** [autotext.set_<key>(v)] on a percentage text of a pie. *)
Definition autotext_set (t : nat * nat * nat * nat) (key : string) (v : kwval)
  : M unit :=
  let '(ax, i, k) := t in
  update_figure ax.1 (λ fg,
    with_axes
      (alter (alter (λ c,
         match c with
         | Pie ws kw => Pie (alter (set_wedge_prop key v) k ws) kw
         | c => c
         end) i) ax.2 (fig_axes fg)) fg).

(** [fig.suptitle(s, **kw)] *)
Definition fig_set_suptitle (fig : nat) (s : string) (kw : kwargs) : M unit :=
  update_figure fig (λ fg,
    {| fig_size := fig_size fg; fig_axes := fig_axes fg;
       fig_suptitle := Some (s, kw); fig_tight := fig_tight fg |}).

(** [plt.gcf()]: the figure created last; a first figure is created
    when there is none. *)
Definition plt_gcf : M nat :=
  s ← get_state;
  match length (figs s) with
  | O => set_figs [empty_figure (6.4%float, 4.8%float) 0];; mret 0%nat
  | S n => mret n
  end.

(** [plt.tight_layout()] *)
Definition plt_tight_layout : M unit :=
  fig ← plt_gcf;
  update_figure fig (λ fg,
    {| fig_size := fig_size fg; fig_axes := fig_axes fg;
       fig_suptitle := fig_suptitle fg; fig_tight := true |}).

(** [plt.colorbar(mappable)]: the current figure gets one more axes,
    which holds the colour bar of the artist. *)
Definition plt_colorbar (mappable : nat * nat * nat) : M (nat * nat) :=
  fig ← plt_gcf;
  s ← get_state;
  match figs s !! fig with
  | Some fg =>
      update_figure fig (with_axes (fig_axes fg ++ [[ColorbarOf mappable]]));;
      mret (fig, length (fig_axes fg))
  | None => raise (ValueError "no such figure")
  end.

Definition write_file (f : savefile) (fs : list savefile) : list savefile :=
  if existsb (λ g, String.eqb (save_name g) (save_name f)) fs
  then (λ g, if String.eqb (save_name g) (save_name f) then f else g) <$> fs
  else fs ++ [f].

(** [fig.savefig(fname, dpi=dpi, bbox_inches=bbox)]: the file of that
    name is created, or replaced when it exists. *)
Definition fig_savefig (fig : nat) (fname : string) (dpi : Z) (bbox : string)
  : M unit :=
  s ← get_state;
  match figs s !! fig with
  | Some _ =>
      set_files (write_file {| save_name := fname; save_fig := fig;
                               save_dpi := dpi; save_bbox := bbox |} (files s))
  | None => raise (ValueError "no such figure")
  end.

(** [plt.show()]: every figure of the registry is displayed. *)
Definition plt_show : M unit :=
  s ← get_state; set_shown (seq 0 (length (figs s))).

(** A dict display of the script's own ([plots]): the items in order of
    insertion; an item with the key of an earlier one takes its place. *)
Definition odict_set {V} (k : string) (v : V) (d : list (string * V))
  : list (string * V) :=
  if existsb (λ kv, String.eqb kv.1 k) d
  then (λ kv, if String.eqb kv.1 k then (k, v) else kv) <$> d
  else d ++ [(k, v)].

Definition odict {V} (items : list (string * V)) : list (string * V) :=
  foldl (λ d kv, odict_set kv.1 kv.2 d) [] items.

(** The state of a fresh interpreter, in which NumPy's generator is in
    state [g]: no object, no figure, nothing printed or written. *)
Definition initial_state (g : G) : state :=
  {| rng := g; heap := ∅; figs := []; stdout := []; files := []; shown := [] |}.

(** ** The script *)

(** [create_sample_data()] *)
Definition create_sample_data : M nat :=
  np_random_seed 42;;
  (* Line plot data *)
  let x_line := Np.linspace 0 10 100 in
  let y_sin := np_sin <$> x_line in
  let y_cos := np_cos <$> x_line in
  (* Scatter plot data *)
  let n_points := 50%nat in
  x_scatter ← np_random_randn n_points;
  noise ← np_random_randn n_points;
  y_scatter ← np_add (PrimFloat.mul 2 <$> x_scatter) noise;
  colors_scatter ← np_random_rand n_points;
  sizes_scatter ← np_random_uniform 50 300 n_points;
  (* Bar chart data *)
  let categories := ["A"; "B"; "C"; "D"; "E"]%string in
  let values := [23; 45; 56; 78; 32] in
  (* Histogram data *)
  hist_data ← np_random_normal 0 1 1000;
  (* Pie chart data *)
  let pie_labels := ["Chocolate"; "Vanilla"; "Strawberry"; "Mint"]%string in
  let pie_sizes := [30; 25; 20; 25] in
  new_dict [
    ("x_line", PyArr x_line); ("y_sin", PyArr y_sin); ("y_cos", PyArr y_cos);
    ("x_scatter", PyArr x_scatter); ("y_scatter", PyArr y_scatter);
    ("colors_scatter", PyArr colors_scatter);
    ("sizes_scatter", PyArr sizes_scatter);
    ("categories", PyStrs categories); ("values", PyInts values);
    ("hist_data", PyArr hist_data);
    ("pie_labels", PyStrs pie_labels); ("pie_sizes", PyInts pie_sizes)
  ]%string.

(** [data[k]] handed to a drawing call as numbers. *)
Definition data_array (data : nat) (k : string) : M (list float) :=
  o ← dict_get data k; as_array o.

(** [create_line_plot(data)] *)
Definition create_line_plot (data : nat) : M nat :=
  '(fig, ax) ← plt_subplots_single (10, 6)%float;
  x ← data_array data "x_line"; y ← data_array data "y_sin";
  ax_plot ax x y None
    [("label", KStr "sin(x)"); ("linewidth", KInt 2); ("color", KStr "#1f77b4")];;
  x ← data_array data "x_line"; y ← data_array data "y_cos";
  ax_plot ax x y None
    [("label", KStr "cos(x)"); ("linewidth", KInt 2); ("color", KStr "#ff7f0e")];;
  ax_do ax (SetTitle "Trigonometric Functions"
              [("fontsize", KInt 16); ("fontweight", KStr "bold")]);;
  ax_do ax (SetXLabel "X values" [("fontsize", KInt 12)]);;
  ax_do ax (SetYLabel "Y values" [("fontsize", KInt 12)]);;
  ax_do ax (Legend [("fontsize", KInt 12)]);;
  ax_do ax (Grid true [("alpha", KNum 0.3)]);;
  mret fig.

(** [create_scatter_plot(data)] *)
Definition create_scatter_plot (data : nat) : M nat :=
  '(fig, ax) ← plt_subplots_single (10, 6)%float;
  x ← data_array data "x_scatter"; y ← data_array data "y_scatter";
  c ← data_array data "colors_scatter"; sz ← data_array data "sizes_scatter";
  scatter ← ax_scatter ax x y
    [("c", KArr c); ("s", KArr sz); ("alpha", KNum 0.7); ("cmap", KStr "viridis")];
  ax_do ax (SetTitle "Scatter Plot with Color and Size Variations"
              [("fontsize", KInt 16); ("fontweight", KStr "bold")]);;
  ax_do ax (SetXLabel "X values" [("fontsize", KInt 12)]);;
  ax_do ax (SetYLabel "Y values" [("fontsize", KInt 12)]);;
  (* Add colorbar *)
  cbar ← plt_colorbar scatter;
  ax_do cbar (SetLabel "Color Scale" [("fontsize", KInt 12)]);;
  mret fig.

(** [create_bar_chart(data)] *)
Definition create_bar_chart (data : nat) : M nat :=
  '(fig, ax) ← plt_subplots_single (10, 6)%float;
  cats ← dict_get data "categories" ≫= as_strings;
  vals ← data_array data "values";
  bars ← ax_bar ax cats vals
    [("color", KStrs ["#ff9999"; "#66b3ff"; "#99ff99"; "#ffcc99"; "#ff99cc"])];
  ax_do ax (SetTitle "Sample Bar Chart"
              [("fontsize", KInt 16); ("fontweight", KStr "bold")]);;
  ax_do ax (SetXLabel "Categories" [("fontsize", KInt 12)]);;
  ax_do ax (SetYLabel "Values" [("fontsize", KInt 12)]);;
  (* Add value labels on bars *)
  for_each bars (λ bar,
    let height := rect_height bar in
    n ← from_option (ValueError "cannot convert float to integer")
          (Np.truncZ height);
    ax_text ax (rect_x bar + rect_width bar / 2)%float (height + 1)%float
      (Str.of_int n)
      [("ha", KStr "center"); ("va", KStr "bottom"); ("fontsize", KInt 10)]);;
  mret fig.

(** [create_histogram(data)] *)
Definition create_histogram (data : nat) : M nat :=
  '(fig, ax) ← plt_subplots_single (10, 6)%float;
  h ← data_array data "hist_data";
  ax_do ax (Hist h [("bins", KInt 30); ("alpha", KNum 0.7);
                    ("color", KStr "skyblue"); ("edgecolor", KStr "black")]);;
  ax_do ax (SetTitle "Normal Distribution Histogram"
              [("fontsize", KInt 16); ("fontweight", KStr "bold")]);;
  ax_do ax (SetXLabel "Value" [("fontsize", KInt 12)]);;
  ax_do ax (SetYLabel "Frequency" [("fontsize", KInt 12)]);;
  (* Add mean line *)
  h ← data_array data "hist_data";
  let mean_val := np_mean h in
  ax_do ax (AxVLine mean_val
              [("color", KStr "red"); ("linestyle", KStr "--");
               ("linewidth", KInt 2);
               ("label", KStr ("Mean: " +:+ Str.format_f 2 (Prim2SF mean_val)))]);;
  ax_do ax (Legend []);;
  mret fig.

(** [create_pie_chart(data)] *)
Definition create_pie_chart (data : nat) : M nat :=
  '(fig, ax) ← plt_subplots_single (8, 8)%float;
  let colors := ["#ff9999"; "#66b3ff"; "#99ff99"; "#ffcc99"]%string in
  sizes ← dict_get data "pie_sizes";
  labels ← dict_get data "pie_labels" ≫= as_strings;
  autotexts ← ax_pie ax sizes labels "%1.1f%%"
    [("colors", KStrs colors); ("startangle", KInt 90)];
  ax_do ax (SetTitle "Ice Cream Flavor Preferences"
              [("fontsize", KInt 16); ("fontweight", KStr "bold")]);;
  (* Make percentage text bold *)
  for_each autotexts (λ autotext,
    autotext_set autotext "fontweight" (KStr "bold");;
    autotext_set autotext "fontsize" (KInt 10));;
  mret fig.

(** [create_subplot_grid()] *)
Definition create_subplot_grid : M nat :=
  '(fig, axes) ← plt_subplots 2 2 (15, 12)%float;
  fig_set_suptitle fig "Subplot Grid Example"
    [("fontsize", KInt 20); ("fontweight", KStr "bold")];;
  (* Top left: Line plot *)
  let x := Np.linspace 0 (4 * Np.pi) 100 in
  ax ← axes_at axes 2 0 0;
  ax_plot ax x (np_sin <$> x) (Some "b-") [("linewidth", KInt 2)];;
  ax ← axes_at axes 2 0 0; ax_do ax (SetTitle "Sine Wave" []);;
  ax ← axes_at axes 2 0 0; ax_do ax (Grid true [("alpha", KNum 0.3)]);;
  (* Top right: Exponential curve *)
  let x := Np.linspace 0 5 100 in
  ax ← axes_at axes 2 0 1;
  ax_plot ax x ((λ v, np_exp (- v)) <$> x) (Some "r-") [("linewidth", KInt 2)];;
  ax ← axes_at axes 2 0 1; ax_do ax (SetTitle "Exponential Decay" []);;
  ax ← axes_at axes 2 0 1; ax_do ax (Grid true [("alpha", KNum 0.3)]);;
  (* Bottom left: Random scatter *)
  x ← np_random_randn 50;
  y ← np_random_randn 50;
  ax ← axes_at axes 2 1 0;
  ax_scatter ax x y [("alpha", KNum 0.6); ("s", KInt 50)];;
  ax ← axes_at axes 2 1 0; ax_do ax (SetTitle "Random Scatter" []);;
  ax ← axes_at axes 2 1 0; ax_do ax (Grid true [("alpha", KNum 0.3)]);;
  (* Bottom right: Step function *)
  let x := Np.linspace 0 10 100 in
  let y := (λ v, Np.remainder (Np.floor v) 2) <$> x in
  ax ← axes_at axes 2 1 1;
  ax_step ax x y (Some "g-") [("linewidth", KInt 2)];;
  ax ← axes_at axes 2 1 1; ax_do ax (SetTitle "Step Function" []);;
  ax ← axes_at axes 2 1 1; ax_do ax (Grid true [("alpha", KNum 0.3)]);;
  plt_tight_layout;;
  mret fig.

(** [create_advanced_plot()] *)
Definition create_advanced_plot : M nat :=
  '(fig, ax) ← plt_subplots_single (12, 8)%float;
  (* Generate data *)
  let x := Np.linspace 0 10 200 in
  let y1 := damped_sine <$> x in
  let y2 := damped_cosine <$> x in
  (* Plot lines *)
  ax_plot ax x y1 (Some "b-")
    [("linewidth", KInt 2); ("label", KStr "Damped Sine"); ("alpha", KNum 0.8)];;
  ax_plot ax x y2 (Some "r-")
    [("linewidth", KInt 2); ("label", KStr "Damped Cosine"); ("alpha", KNum 0.8)];;
  (* Fill between curves *)
  ax_fill_between ax x y1 y2 [("alpha", KNum 0.2); ("color", KStr "gray")];;
  (* Add annotations *)
  ax_do ax (Annotate "Maximum Point" arrow_target (4, 0.8)%float
              [("arrowprops", KDict [("arrowstyle", KStr "->"); ("color", KStr "red")]);
               ("fontsize", KInt 12); ("ha", KStr "center")]);;
  (* Customize plot *)
  ax_do ax (SetTitle "Advanced Matplotlib Plot with Annotations"
              [("fontsize", KInt 16); ("fontweight", KStr "bold"); ("pad", KInt 20)]);;
  ax_do ax (SetXLabel "Time (s)" [("fontsize", KInt 12)]);;
  ax_do ax (SetYLabel "Amplitude" [("fontsize", KInt 12)]);;
  ax_do ax (Legend [("fontsize", KInt 12); ("loc", KStr "upper right")]);;
  ax_do ax (Grid true [("alpha", KNum 0.3)]);;
  (* Set axis limits *)
  ax_do ax (SetXLim 0 10);;
  ax_do ax (SetYLim (-1) 1);;
  (* Add text box *)
  let textstr :=
    ("Damped oscillations" +:+ String "010" "with exponential decay")%string in
  let props := [("boxstyle", KStr "round,pad=0.5");
                ("facecolor", KStr "lightblue"); ("alpha", KNum 0.8)] in
  ax_text ax 0.02 0.98 textstr
    [("transform", KStr "ax.transAxes"); ("fontsize", KInt 10);
     ("verticalalignment", KStr "top"); ("bbox", KDict props)];;
  mret fig.

(** The file name of a chart: [f"{name.lower().replace(' ', '_')}.png"]. *)
Definition plot_filename (name : string) : string :=
  Str.replace " " "_" (Str.lower name) +:+ ".png".

(** [main()] *)
Definition main : M unit :=
  print "Generating matplotlib sample visualizations...";;
  (* Create sample data *)
  data ← create_sample_data;
  (* Generate all plots *)
  line ← create_line_plot data;
  scatter ← create_scatter_plot data;
  bar ← create_bar_chart data;
  hist ← create_histogram data;
  pie ← create_pie_chart data;
  grid ← create_subplot_grid;
  advanced ← create_advanced_plot;
  let plots := odict [
    ("Line Plot", line); ("Scatter Plot", scatter); ("Bar Chart", bar);
    ("Histogram", hist); ("Pie Chart", pie); ("Subplot Grid", grid);
    ("Advanced Plot", advanced) ]%string in
  (* Save all plots *)
  for_each plots (λ '(name, fig),
    let filename := plot_filename name in
    fig_savefig fig filename 300 "tight";;
    print ("Saved: " +:+ filename));;
  (* Show all plots *)
  plt_show;;
  print (String "010" "All plots generated successfully!");;
  print "Files saved:";;
  for_each plots.*1 (λ name,
    let filename := plot_filename name in
    print ("  - " +:+ filename)).

End Program.

Arguments state : clear implicits.
Arguments M : clear implicits.

(** ** Reading the bundle *)

(** [len(b[k])] for a dict [b] of arrays and lists. *)
Definition bundle_len (b : gmap string pyobj) (k : string) : option nat :=
  o ← b !! k;
  Some match o with
       | PyArr a => length a
       | PyInts l => length l
       | PyStrs l => length l
       end.

Section Sample.
Context `{!Numpy} {G : Type} `{!RandomState G}.

(** The dict that a run leaves at the address it returns. *)
Definition dict_of_run (r : (exn + nat) * state G) : option (gmap string pyobj) :=
  match r.1 with
  | inr d => heap r.2 !! d
  | inl _ => None
  end.

(** The bundle that [create_sample_data()] builds in a fresh
    interpreter. *)
Definition sample_bundle : gmap string pyobj :=
  default ∅ (dict_of_run (create_sample_data (initial_state (rk_seed 0)))).

(** The generator's stream after [np.random.seed(42)], cut at the
    places where the script draws from it: the fifty normal numbers of
    [x_scatter], the fifty that follow, fifty uniform numbers, fifty
    uniform numbers of [[50, 300)], and a thousand normal numbers. *)
Definition stream_x : list float * G := draws rk_gauss 50 (rk_seed 42).
Definition stream_noise : list float * G := draws rk_gauss 50 (snd stream_x).
Definition stream_colors : list float * G := draws rk_double 50 (snd stream_noise).
Definition stream_sizes : list float * G :=
  draws (uniform_draw 50 300) 50 (snd stream_colors).
Definition stream_hist : list float * G :=
  draws (normal_draw 0 1) 1000 (snd stream_sizes).

(** The chart builders that take the bundle. *)
Inductive bundle_chart := LinePlot | ScatterPlot | BarChart | Histogram | PieChart.

Definition bundle_builder (c : bundle_chart) : nat → M G nat :=
  match c with
  | LinePlot => create_line_plot
  | ScatterPlot => create_scatter_plot
  | BarChart => create_bar_chart
  | Histogram => create_histogram
  | PieChart => create_pie_chart
  end.

End Sample.

(** ** Reading a figure *)

(** The texts added to an axes by [ax.text], in order. *)
Definition texts_of (cs : list call) : list text :=
  omap (λ c, match c with AddText t => Some t | _ => None end) cs.

(** The bars drawn on an axes by [ax.bar]. *)
Definition bars_of (cs : list call) : list rectangle :=
  mjoin (omap (λ c, match c with Bar bars _ => Some bars | _ => None end) cs).

(** The wedges of the pies drawn on an axes. *)
Definition wedges_of (cs : list call) : list wedge :=
  mjoin (omap (λ c, match c with Pie ws _ => Some ws | _ => None end) cs).

(** The data of the step lines of an axes: the points [(x, y)]. *)
Definition steps_of (cs : list call) : list (float * float) :=
  mjoin (omap (λ c, match c with Step x y _ _ => Some (zip x y) | _ => None end) cs).

(** The data of the scatter plots of an axes. *)
Definition scatters_of (cs : list call) : list (list float * list float) :=
  omap (λ c, match c with Scatter x y _ => Some (x, y) | _ => None end) cs.

(** The points the arrows of the annotations of an axes end at. *)
Definition arrows_of (cs : list call) : list (string * (float * float)) :=
  omap (λ c, match c with Annotate s xy _ _ => Some (s, xy) | _ => None end) cs.

(** The data of the lines of an axes with their labels. *)
Definition lines_of (cs : list call) : list (list float * list float) :=
  omap (λ c, match c with Plot x y _ _ => Some (x, y) | _ => None end) cs.

(** The axes [k] of the figure [f] of a registry. *)
Definition axes_of (F : list figure) (f k : nat) : list call :=
  default [] (fg ← F !! f; fig_axes fg !! k).

(** ** Local maxima *)

(** [x0] is a point of [[a, b]] at which [f] is a local maximum on
    [[a, b]]: no point of [[a, b]] near [x0] has a greater value. *)
Definition local_max_on (a b : R) (f : R → R) (x0 : R) : Prop :=
  (a <= x0 <= b)%R ∧
  ∃ eps : R, (0 < eps)%R ∧
    ∀ x : R, (a <= x <= b)%R → (Rabs (x - x0) < eps)%R → (f x <= f x0)%R.

(** ** What the builders of the bundle read first *)

(** The key a builder of the bundle reads first, and the size of the
    figure it has created by then. *)
Definition first_key (c : bundle_chart) : string :=
  match c with
  | LinePlot => "x_line"
  | ScatterPlot => "x_scatter"
  | BarChart => "categories"
  | Histogram => "hist_data"
  | PieChart => "pie_sizes"
  end.

Definition chart_size (c : bundle_chart) : float * float :=
  match c with
  | PieChart => (8, 8)%float
  | _ => (10, 6)%float
  end.





(** The limits set on the axes. *)
Definition limits_of (cs : list call) : list (string * float * float) :=
  omap (λ c, match c with
             | SetXLim a b => Some ("x"%string, a, b)
             | SetYLim a b => Some ("y"%string, a, b)
             | _ => None
             end) cs.

(** The regions filled between two curves. *)
Definition fills_of (cs : list call) : list (list float * list float * list float) :=
  omap (λ c, match c with FillBetween x y1 y2 _ => Some (x, y1, y2) | _ => None end) cs.


(** ** Executable instances of the interfaces

    A linear congruential generator and polynomial stand-ins for the
    elementary functions: with them the whole script runs inside Rocq.
    The theorems below hold for every implementation of the interfaces;
    these instances serve to run the script on concrete states. *)
Module Demo.

Definition lcg_next (g : Z) : Z := (1103515245 * g + 12345) mod 2 ^ 31.

Definition lcg_double (g : Z) : float * Z :=
  let g' := lcg_next g in ((Np.of_Z g' / Np.of_Z (2 ^ 31))%float, g').

(** The sum of four uniform draws, centred. *)
Definition lcg_gauss (g : Z) : float * Z :=
  let a := lcg_double g in
  let b := lcg_double (snd a) in
  let c := lcg_double (snd b) in
  let d := lcg_double (snd c) in
  ((fst a + fst b + fst c + fst d - 2)%float, snd d).

#[export] Instance lcg_random : RandomState Z := {
  rk_seed n := n mod 2 ^ 31;
  rk_double := lcg_double;
  rk_gauss := lcg_gauss
}.

#[export] Instance poly_numpy : Numpy := {
  np_sin x := (x - x * x * x / 6)%float;
  np_cos x := (1 - x * x / 2)%float;
  np_exp x := (1 + x + x * x / 2)%float;
  np_mean a := (foldl PrimFloat.add 0 a / Np.of_Z (Z.of_nat (length a)))%float
}.

End Demo.

(** * Properties *)

Section Properties.
Context `{!Numpy} {G : Type} `{!RandomState G}.

Implicit Types (s : state G) (g : G) (h : gmap nat (gmap string pyobj))
  (F : list figure) (fg : figure) (o : list string) (w : list savefile)
  (sh : list nat).

(** ** Runs that return *)

(** [returns m s a s']: from state [s] the computation [m] returns [a]
    (it raises no exception) and leaves the state [s']. *)
Definition returns {A} (m : M G A) s (a : A) s' : Prop := m s = (inr a, s').

Lemma returns_ret {A} (a : A) s : returns (mret a) s a s.
Proof. reflexivity. Qed.

Lemma returns_bind {A B} (m : M G A) (k : A → M G B) s a s1 b s2 :
  returns m s a s1 → returns (k a) s1 b s2 → returns (m ≫= k) s b s2.
Proof.
  unfold returns, mbind, M_bind. intros -> Hk. exact Hk.
Qed.

Lemma returns_get_state s : returns get_state s s s.
Proof. reflexivity. Qed.

Lemma returns_from_option {A} e (x : option A) a s :
  x = Some a → returns (from_option e x) s a s.
Proof. intros ->. reflexivity. Qed.

Lemma returns_same_length {A B} (a : list A) (b : list B) s :
  length a = length b → returns (same_length a b) s () s.
Proof. intros E. unfold same_length. rewrite decide_True by done. reflexivity. Qed.

Lemma returns_np_add (a b : list float) s :
  length a = length b → returns (np_add a b) s (zip_with PrimFloat.add a b) s.
Proof. intros E. unfold np_add. rewrite decide_True by done. reflexivity. Qed.

Lemma returns_print line g h F o w sh :
  returns (print line) (State g h F o w sh) () (State g h F (o ++ [line]) w sh).
Proof. reflexivity. Qed.

Lemma returns_seed n g h F o w sh :
  returns (np_random_seed n) (State g h F o w sh) () (State (rk_seed n) h F o w sh).
Proof. reflexivity. Qed.

Lemma returns_random_array draw n g h F o w sh :
  returns (random_array draw n) (State g h F o w sh)
    (fst (draws draw n g)) (State (snd (draws draw n g)) h F o w sh).
Proof. reflexivity. Qed.

Lemma returns_new_dict items g h F o w sh :
  returns (new_dict items) (State g h F o w sh) (fresh (dom h))
    (State g (<[fresh (dom h) := foldl (λ d kv, <[kv.1 := kv.2]> d) ∅ items]> h)
       F o w sh).
Proof. reflexivity. Qed.

Lemma returns_dict_get d k b v g h F o w sh :
  h !! d = Some b → b !! k = Some v →
  returns (dict_get d k) (State g h F o w sh) v (State g h F o w sh).
Proof.
  intros Hd Hk. unfold returns, dict_get, mbind, M_bind, get_state. cbn.
  rewrite Hd, Hk. reflexivity.
Qed.

(** *** Drawing on the figure created last *)

Lemma returns_subplots nrows ncols size g h F o w sh :
  returns (plt_subplots nrows ncols size) (State g h F o w sh)
    (length F, (λ k, (length F, k)) <$> seq 0 (nrows * ncols))
    (State g h (F ++ [empty_figure size (nrows * ncols)]) o w sh).
Proof. reflexivity. Qed.

Lemma returns_subplots_single size g h F o w sh :
  returns (plt_subplots_single size) (State g h F o w sh)
    (length F, (length F, 0%nat))
    (State g h (F ++ [empty_figure size 1]) o w sh).
Proof. reflexivity. Qed.

Lemma insert_last {A} (l : list A) (x y : A) :
  <[length l := y]> (l ++ [x]) = l ++ [y].
Proof.
  rewrite insert_app_r_alt by lia. by rewrite Nat.sub_diag.
Qed.

Lemma returns_update_figure upd fg g h F o w sh :
  returns (update_figure (length F) upd) (State g h (F ++ [fg]) o w sh) ()
    (State g h (F ++ [upd fg]) o w sh).
Proof.
  unfold returns, update_figure, mbind, M_bind, get_state, set_figs. cbn.
  rewrite list_lookup_middle by done.
  rewrite insert_last. reflexivity.
Qed.

Lemma returns_ax_call k c cs fg g h F o w sh :
  fig_axes fg !! k = Some cs →
  returns (ax_call (length F, k) c) (State g h (F ++ [fg]) o w sh) (length cs)
    (State g h (F ++ [with_axes (<[k := cs ++ [c]]> (fig_axes fg)) fg]) o w sh).
Proof.
  intros Hk. unfold ax_call.
  eapply returns_bind; [apply returns_get_state|]. cbn.
  rewrite list_lookup_middle by done. rewrite Hk.
  eapply returns_bind; [apply returns_update_figure|]. reflexivity.
Qed.

Lemma returns_ax_do k c cs fg g h F o w sh :
  fig_axes fg !! k = Some cs →
  returns (ax_do (length F, k) c) (State g h (F ++ [fg]) o w sh) ()
    (State g h (F ++ [with_axes (<[k := cs ++ [c]]> (fig_axes fg)) fg]) o w sh).
Proof.
  intros Hk. unfold ax_do.
  eapply returns_bind; [by apply returns_ax_call|]. reflexivity.
Qed.

Lemma returns_gcf fg g h F o w sh :
  returns plt_gcf (State g h (F ++ [fg]) o w sh) (length F)
    (State g h (F ++ [fg]) o w sh).
Proof.
  unfold returns, plt_gcf, mbind, M_bind, get_state. cbn.
  rewrite length_app, Nat.add_1_r. reflexivity.
Qed.

Lemma returns_tight_layout fg g h F o w sh :
  returns plt_tight_layout (State g h (F ++ [fg]) o w sh) ()
    (State g h
       (F ++ [{| fig_size := fig_size fg; fig_axes := fig_axes fg;
                 fig_suptitle := fig_suptitle fg; fig_tight := true |}]) o w sh).
Proof.
  unfold plt_tight_layout.
  eapply returns_bind; [apply returns_gcf|].
  exact (returns_update_figure
           (λ fg, {| fig_size := fig_size fg; fig_axes := fig_axes fg;
                     fig_suptitle := fig_suptitle fg; fig_tight := true |})
           fg g h F o w sh).
Qed.

Lemma returns_colorbar mappable fg g h F o w sh :
  returns (plt_colorbar mappable) (State g h (F ++ [fg]) o w sh)
    (length F, length (fig_axes fg))
    (State g h (F ++ [with_axes (fig_axes fg ++ [[ColorbarOf mappable]]) fg]) o w sh).
Proof.
  unfold plt_colorbar.
  eapply returns_bind; [apply returns_gcf|].
  eapply returns_bind; [apply returns_get_state|]. cbn.
  rewrite list_lookup_middle by done.
  eapply returns_bind; [apply returns_update_figure|]. reflexivity.
Qed.

Lemma returns_savefig fig fg fname dpi bbox g h F o w sh :
  F !! fig = Some fg →
  returns (fig_savefig fig fname dpi bbox) (State g h F o w sh) ()
    (State g h F o
       (write_file {| save_name := fname; save_fig := fig;
                      save_dpi := dpi; save_bbox := bbox |} w) sh).
Proof.
  intros Hf. unfold returns, fig_savefig, mbind, M_bind, get_state. cbn.
  rewrite Hf. reflexivity.
Qed.

Lemma returns_for_each_nil {A} (body : A → M G ()) s :
  returns (for_each [] body) s () s.
Proof. reflexivity. Qed.

Lemma returns_for_each_cons {A} (body : A → M G ()) x l s s1 s2 :
  returns (body x) s () s1 → returns (for_each l body) s1 () s2 →
  returns (for_each (x :: l) body) s () s2.
Proof. intros H1 H2. cbn. eapply returns_bind; [exact H1|exact H2]. Qed.

Lemma returns_data_array d k b a g h F o w sh :
  h !! d = Some b → b !! k = Some (PyArr a) →
  returns (data_array d k) (State g h F o w sh) a (State g h F o w sh).
Proof.
  intros Hd Hk. unfold data_array.
  eapply returns_bind; [by eapply returns_dict_get|]. reflexivity.
Qed.

Lemma returns_data_ints d k b l g h F o w sh :
  h !! d = Some b → b !! k = Some (PyInts l) →
  returns (data_array d k) (State g h F o w sh) (Np.of_Z <$> l)
    (State g h F o w sh).
Proof.
  intros Hd Hk. unfold data_array.
  eapply returns_bind; [by eapply returns_dict_get|]. reflexivity.
Qed.

Lemma returns_data_strings d k b l g h F o w sh :
  h !! d = Some b → b !! k = Some (PyStrs l) →
  returns (dict_get d k ≫= as_strings) (State g h F o w sh) l
    (State g h F o w sh).
Proof.
  intros Hd Hk.
  eapply returns_bind; [by eapply returns_dict_get|]. reflexivity.
Qed.

Lemma returns_axes_at axes ncols r c ax s :
  (c < ncols)%nat → axes !! (r * ncols + c)%nat = Some ax →
  returns (axes_at axes ncols r c) s ax s.
Proof.
  intros Hc Hax. unfold axes_at. rewrite decide_True by done.
  by apply returns_from_option.
Qed.

Lemma returns_ax_plot k x y fmt kw cs fg g h F o w sh :
  length x = length y → fig_axes fg !! k = Some cs →
  returns (ax_plot (length F, k) x y fmt kw) (State g h (F ++ [fg]) o w sh) ()
    (State g h
       (F ++ [with_axes (<[k := cs ++ [Plot x y fmt kw]]> (fig_axes fg)) fg])
       o w sh).
Proof.
  intros Hl Hk. unfold ax_plot.
  eapply returns_bind; [by apply returns_same_length|].
  by apply returns_ax_do.
Qed.

Lemma returns_ax_step k x y fmt kw cs fg g h F o w sh :
  length x = length y → fig_axes fg !! k = Some cs →
  returns (ax_step (length F, k) x y fmt kw) (State g h (F ++ [fg]) o w sh) ()
    (State g h
       (F ++ [with_axes (<[k := cs ++ [Step x y fmt kw]]> (fig_axes fg)) fg])
       o w sh).
Proof.
  intros Hl Hk. unfold ax_step.
  eapply returns_bind; [by apply returns_same_length|].
  by apply returns_ax_do.
Qed.

Lemma returns_ax_scatter k x y kw cs fg g h F o w sh :
  length x = length y → fig_axes fg !! k = Some cs →
  returns (ax_scatter (length F, k) x y kw) (State g h (F ++ [fg]) o w sh)
    (length F, k, length cs)
    (State g h
       (F ++ [with_axes (<[k := cs ++ [Scatter x y kw]]> (fig_axes fg)) fg])
       o w sh).
Proof.
  intros Hl Hk. unfold ax_scatter.
  eapply returns_bind; [by apply returns_same_length|].
  eapply returns_bind; [by apply returns_ax_call|]. reflexivity.
Qed.

Lemma returns_ax_fill_between k x y1 y2 kw cs fg g h F o w sh :
  length x = length y1 → length x = length y2 → fig_axes fg !! k = Some cs →
  returns (ax_fill_between (length F, k) x y1 y2 kw)
    (State g h (F ++ [fg]) o w sh) ()
    (State g h
       (F ++ [with_axes (<[k := cs ++ [FillBetween x y1 y2 kw]]> (fig_axes fg)) fg])
       o w sh).
Proof.
  intros H1 H2 Hk. unfold ax_fill_between.
  eapply returns_bind; [by apply returns_same_length|].
  eapply returns_bind; [by apply returns_same_length|].
  by apply returns_ax_do.
Qed.

Lemma returns_ax_text k x y str kw cs fg g h F o w sh :
  fig_axes fg !! k = Some cs →
  returns (ax_text (length F, k) x y str kw) (State g h (F ++ [fg]) o w sh) ()
    (State g h
       (F ++ [with_axes
                (<[k := cs ++ [AddText {| text_x := x; text_y := y;
                                          text_str := str; text_props := kw |}]]>
                   (fig_axes fg)) fg])
       o w sh).
Proof. intros Hk. unfold ax_text. by apply returns_ax_do. Qed.

Lemma returns_suptitle str kw fg g h F o w sh :
  returns (fig_set_suptitle (length F) str kw) (State g h (F ++ [fg]) o w sh) ()
    (State g h
       (F ++ [{| fig_size := fig_size fg; fig_axes := fig_axes fg;
                 fig_suptitle := Some (str, kw); fig_tight := fig_tight fg |}])
       o w sh).
Proof.
  exact (returns_update_figure
           (λ fg, {| fig_size := fig_size fg; fig_axes := fig_axes fg;
                     fig_suptitle := Some (str, kw); fig_tight := fig_tight fg |})
           fg g h F o w sh).
Qed.

Lemma returns_ax_bar k x height kw cs fg g h F o w sh :
  length x = length height → fig_axes fg !! k = Some cs →
  let bars :=
    zip_with (λ c v,
      {| rect_x := (Np.of_Z (Z.of_nat (category_index x c)) - 0.8 / 2)%float;
         rect_y := 0%float; rect_width := 0.8%float; rect_height := v |})
      x height in
  returns (ax_bar (length F, k) x height kw) (State g h (F ++ [fg]) o w sh) bars
    (State g h
       (F ++ [with_axes (<[k := cs ++ [Bar bars kw]]> (fig_axes fg)) fg]) o w sh).
Proof.
  intros Hl Hk bars. unfold ax_bar.
  eapply returns_bind; [by apply returns_same_length|].
  eapply returns_bind; [by apply returns_ax_do|]. reflexivity.
Qed.

Lemma returns_ax_pie k (x : list Z) labels autopct kw texts cs fg g h F o w sh :
  let xs := F32.of_Z <$> x in
  let fracs := (λ v, F32.div v (F32.sum xs)) <$> xs in
  let wedges :=
    zip_with (λ fl t,
      {| wedge_frac := fl.1; wedge_label := fl.2;
         wedge_autotext := t; wedge_autoprops := [] |})
      (zip fracs labels) texts in
  length x = length labels →
  existsb (λ v, F32.ltb v (S754_zero false)) xs = false →
  mapM (λ frac, Fmt.percent autopct (pie_percent frac)) fracs = Some texts →
  fig_axes fg !! k = Some cs →
  returns (ax_pie (length F, k) (PyInts x) labels autopct kw)
    (State g h (F ++ [fg]) o w sh)
    ((λ j, (length F, k, length cs, j)) <$> seq 0 (length wedges))
    (State g h
       (F ++ [with_axes (<[k := cs ++ [Pie wedges kw]]> (fig_axes fg)) fg]) o w sh).
Proof.
  intros xs fracs wedges Hl Hneg Htexts Hk. unfold ax_pie.
  eapply returns_bind; [apply returns_ret|].
  eapply returns_bind;
    [apply returns_same_length; by rewrite length_fmap|].
  fold xs. rewrite Hneg.
  eapply returns_bind; [apply returns_ret|]. cbv zeta. fold fracs.
  eapply returns_bind; [by apply returns_from_option|].
  eapply returns_bind; [by apply returns_ax_call|]. reflexivity.
Qed.

Lemma returns_autotext_set k i j key v fg g h F o w sh :
  returns (autotext_set (length F, k, i, j) key v)
    (State g h (F ++ [fg]) o w sh) ()
    (State g h
       (F ++ [with_axes
                (alter (alter (λ c,
                   match c with
                   | Pie ws kw => Pie (alter (set_wedge_prop key v) j ws) kw
                   | c => c
                   end) i) k (fig_axes fg)) fg]) o w sh).
Proof.
  exact (returns_update_figure
           (λ fg, with_axes
              (alter (alter (λ c,
                 match c with
                 | Pie ws kw => Pie (alter (set_wedge_prop key v) j ws) kw
                 | c => c
                 end) i) k (fig_axes fg)) fg)
           fg g h F o w sh).
Qed.

Lemma length_draws (draw : G → float * G) n g : length (draws draw n g).1 = n.
Proof.
  revert g. induction n as [|n IH]; intros g; cbn; [done|]. by rewrite IH.
Qed.

Lemma length_linspace a b n : length (Np.linspace a b n) = n.
Proof.
  unfold Np.linspace, Np.arange.
  repeat case_decide; repeat case_match;
    rewrite ?length_insert, !length_fmap, length_seq; done.
Qed.

(** Whatever the state it starts from, the generator returns a new
    dict holding one and the same bundle and leaves one and the same
    generator state; nothing else changes. *)

(** One step of a run: the first computation of a sequence is run by
    the lemma that fits it, the figure under construction is brought
    back to an explicit record, and the run goes on with the rest. *)
Ltac fig_norm :=
  cbn [with_axes fig_axes fig_size fig_suptitle fig_tight empty_figure
       replicate insert list_insert lookup list_lookup app Nat.mul Nat.add
       fmap list_fmap seq alter list_alter zip_with length fst snd
       set_wedge_prop wedge_frac wedge_label wedge_autotext wedge_autoprops].

Ltac run_prim :=
  lazymatch goal with
  | |- returns (mret _) _ _ _ => apply returns_ret
  | |- returns (print _) _ _ _ => apply returns_print
  | |- returns (np_random_seed _) _ _ _ => apply returns_seed
  | |- returns (random_array _ _) _ _ _ => apply returns_random_array
  | |- returns (np_random_randn _) _ _ _ => apply returns_random_array
  | |- returns (np_random_rand _) _ _ _ => apply returns_random_array
  | |- returns (np_random_uniform _ _ _) _ _ _ => apply returns_random_array
  | |- returns (np_random_normal _ _ _) _ _ _ => apply returns_random_array
  | |- returns (new_dict _) _ _ _ => apply returns_new_dict
  | |- returns (plt_subplots_single _) _ _ _ => apply returns_subplots_single
  | |- returns (plt_subplots _ _ _) _ _ _ => apply returns_subplots
  | |- returns plt_tight_layout _ _ _ => apply returns_tight_layout
  | |- returns (plt_colorbar _) _ _ _ => apply returns_colorbar
  | |- returns (fig_set_suptitle _ _ _) _ _ _ => apply returns_suptitle
  | |- returns (autotext_set _ _ _) _ _ _ => apply returns_autotext_set
  | |- returns (data_array _ _) _ _ _ =>
      first [ eapply returns_data_array; [eassumption | eassumption]
            | eapply returns_data_ints; [eassumption | eassumption] ]
  | |- returns (dict_get _ _ ≫= as_strings) _ _ _ =>
      eapply returns_data_strings; [eassumption | eassumption]
  | |- returns (dict_get _ _) _ _ _ =>
      eapply returns_dict_get; [eassumption | eassumption]
  | |- returns (axes_at _ _ _ _) _ _ _ =>
      eapply returns_axes_at; [cbv; lia | reflexivity]
  | |- returns (ax_plot _ _ _ _ _) _ _ _ =>
      eapply returns_ax_plot; [by rewrite ?length_fmap | reflexivity]
  | |- returns (ax_step _ _ _ _ _) _ _ _ =>
      eapply returns_ax_step; [by rewrite ?length_fmap | reflexivity]
  | |- returns (ax_scatter _ _ _ _) _ _ _ =>
      eapply returns_ax_scatter; [by rewrite ?length_draws | reflexivity]
  | |- returns (ax_fill_between _ _ _ _ _) _ _ _ =>
      eapply returns_ax_fill_between;
      [by rewrite ?length_fmap | by rewrite ?length_fmap | reflexivity]
  | |- returns (ax_bar _ _ _ _) _ _ _ =>
      eapply returns_ax_bar; [done | reflexivity]
  | |- returns (ax_pie _ _ _ _ _) _ _ _ =>
      eapply returns_ax_pie;
      [done | vm_compute; reflexivity | vm_compute; reflexivity | reflexivity]
  | |- returns (ax_text _ _ _ _ _) _ _ _ => eapply returns_ax_text; reflexivity
  | |- returns (ax_do _ _) _ _ _ => eapply returns_ax_do; reflexivity
  | |- returns (np_add _ _) _ _ _ =>
      eapply returns_np_add; by rewrite ?length_fmap, ?length_draws
  | |- returns (from_option _ _) _ _ _ =>
      eapply returns_from_option; vm_compute; reflexivity
  end.

Ltac run_loop :=
  lazymatch goal with
  | |- returns (for_each [] _) _ _ _ => apply returns_for_each_nil
  | |- returns (for_each (_ :: _) _) _ _ _ =>
      eapply returns_for_each_cons;
      [ cbv beta iota zeta; run_seq | fig_norm; run_loop ]
  end
with run_seq :=
  lazymatch goal with
  | |- returns (for_each _ _ ≫= _) _ _ _ =>
      eapply returns_bind; [run_loop | cbv beta iota zeta; fig_norm; run_seq]
  | |- returns (dict_get _ _ ≫= as_strings) _ _ _ => run_prim
  | |- returns (_ ≫= _) _ _ _ =>
      eapply returns_bind; [run_prim | cbv beta iota zeta; fig_norm; run_seq]
  | |- returns (for_each _ _) _ _ _ => run_loop
  | |- _ => run_prim
  end.

Ltac run := run_seq.

Lemma line_plot_returns d b (x ys yc : list float) g h F o w sh :
  h !! d = Some b →
  b !! "x_line" = Some (PyArr x) → b !! "y_sin" = Some (PyArr ys) →
  b !! "y_cos" = Some (PyArr yc) →
  length x = length ys → length x = length yc →
  ∃ fg, returns (create_line_plot d) (State g h F o w sh) (length F)
          (State g h (F ++ [fg]) o w sh).
Proof.
  intros Hd Hx Hs Hc Hls Hlc. eexists. unfold create_line_plot.
  run.
Qed.

Lemma scatter_plot_returns d b (x y c sz : list float) g h F o w sh :
  h !! d = Some b →
  b !! "x_scatter" = Some (PyArr x) → b !! "y_scatter" = Some (PyArr y) →
  b !! "colors_scatter" = Some (PyArr c) →
  b !! "sizes_scatter" = Some (PyArr sz) →
  length x = length y →
  ∃ fg, returns (create_scatter_plot d) (State g h F o w sh) (length F)
          (State g h (F ++ [fg]) o w sh).
Proof.
  intros Hd Hx Hy Hc Hs Hl. eexists. unfold create_scatter_plot.
  run.
Qed.

Lemma histogram_returns d b (x : list float) g h F o w sh :
  h !! d = Some b → b !! "hist_data" = Some (PyArr x) →
  ∃ fg, returns (create_histogram d) (State g h F o w sh) (length F)
          (State g h (F ++ [fg]) o w sh).
Proof.
  intros Hd Hx. eexists. unfold create_histogram.
  run.
Qed.

Lemma bar_chart_returns d b cats vals g h F o w sh :
  h !! d = Some b →
  b !! "categories" = Some (PyStrs cats) → b !! "values" = Some (PyInts vals) →
  cats = ["A"; "B"; "C"; "D"; "E"]%string → vals = [23; 45; 56; 78; 32] →
  ∃ fg, returns (create_bar_chart d) (State g h F o w sh) (length F)
          (State g h (F ++ [fg]) o w sh) ∧
        ∃ cs, fig_axes fg = [cs] ∧
          text_str <$> texts_of cs = Str.of_int <$> vals ∧
          (λ t, (text_x t, text_y t)) <$> texts_of cs =
          (λ r, (rect_x r + rect_width r / 2, rect_height r + 1)%float)
            <$> bars_of cs ∧
          rect_height <$> bars_of cs = Np.of_Z <$> vals.
Proof.
  intros Hd Hc Hv -> ->. eexists. split.
  - unfold create_bar_chart. run.
  - eexists. split; [reflexivity|]. by vm_compute.
Qed.


(** ** The data generator *)

(** Whatever the state it starts from, the generator returns a new
    dict holding one and the same bundle and leaves one and the same
    generator state; nothing else changes. *)
Lemma generator_run g h F o w sh :
  returns create_sample_data (State g h F o w sh) (fresh (dom h))
    (State (snd stream_hist) (<[fresh (dom h) := sample_bundle]> h) F o w sh).
Proof.
  assert (∃ b, ∀ g h F o w sh,
    returns create_sample_data (State g h F o w sh) (fresh (dom h))
      (State (snd stream_hist) (<[fresh (dom h) := b]> h) F o w sh))
    as [b Hb].
  { eexists. intros.
    unfold create_sample_data, stream_hist, stream_sizes, stream_colors,
      stream_noise, stream_x.
    run. }
  replace sample_bundle with b; [apply Hb|].
  pose proof (Hb (rk_seed 0) ∅ [] [] [] []) as Hr. unfold returns in Hr.
  unfold sample_bundle, dict_of_run, initial_state.
  rewrite Hr. cbn [fst snd heap default].
  by rewrite lookup_insert_eq.
Qed.

Lemma returns_inj {A} (m : M G A) s a1 s1 a2 s2 :
  returns m s a1 s1 → returns m s a2 s2 → a1 = a2 ∧ s1 = s2.
Proof. unfold returns. intros -> [= -> ->]. done. Qed.

(** The bundle, entry by entry. *)
Lemma sample_bundle_contents :
  let x_line := Np.linspace 0 10 100 in
  sample_bundle !! "x_line" = Some (PyArr x_line) ∧
  sample_bundle !! "y_sin" = Some (PyArr (np_sin <$> x_line)) ∧
  sample_bundle !! "y_cos" = Some (PyArr (np_cos <$> x_line)) ∧
  sample_bundle !! "x_scatter" = Some (PyArr (fst stream_x)) ∧
  sample_bundle !! "y_scatter" =
    Some (PyArr (zip_with PrimFloat.add (PrimFloat.mul 2 <$> fst stream_x)
                   (fst stream_noise))) ∧
  sample_bundle !! "colors_scatter" = Some (PyArr (fst stream_colors)) ∧
  sample_bundle !! "sizes_scatter" = Some (PyArr (fst stream_sizes)) ∧
  sample_bundle !! "categories" = Some (PyStrs ["A"; "B"; "C"; "D"; "E"]) ∧
  sample_bundle !! "values" = Some (PyInts [23; 45; 56; 78; 32]) ∧
  sample_bundle !! "hist_data" = Some (PyArr (fst stream_hist)) ∧
  sample_bundle !! "pie_labels" =
    Some (PyStrs ["Chocolate"; "Vanilla"; "Strawberry"; "Mint"]) ∧
  sample_bundle !! "pie_sizes" = Some (PyInts [30; 25; 20; 25]).
Proof.
  assert (∃ b,
    returns create_sample_data (initial_state (rk_seed 0))
      (fresh (dom (∅ : gmap nat (gmap string pyobj))))
      (State (snd stream_hist)
         (<[fresh (dom (∅ : gmap nat (gmap string pyobj))) := b]> ∅)
         [] [] [] []) ∧
    b !! "x_line" = Some (PyArr (Np.linspace 0 10 100)) ∧
    b !! "y_sin" = Some (PyArr (np_sin <$> Np.linspace 0 10 100)) ∧
    b !! "y_cos" = Some (PyArr (np_cos <$> Np.linspace 0 10 100)) ∧
    b !! "x_scatter" = Some (PyArr (fst stream_x)) ∧
    b !! "y_scatter" =
      Some (PyArr (zip_with PrimFloat.add (PrimFloat.mul 2 <$> fst stream_x)
                     (fst stream_noise))) ∧
    b !! "colors_scatter" = Some (PyArr (fst stream_colors)) ∧
    b !! "sizes_scatter" = Some (PyArr (fst stream_sizes)) ∧
    b !! "categories" = Some (PyStrs ["A"; "B"; "C"; "D"; "E"]) ∧
    b !! "values" = Some (PyInts [23; 45; 56; 78; 32]) ∧
    b !! "hist_data" = Some (PyArr (fst stream_hist)) ∧
    b !! "pie_labels" =
      Some (PyStrs ["Chocolate"; "Vanilla"; "Strawberry"; "Mint"]) ∧
    b !! "pie_sizes" = Some (PyInts [30; 25; 20; 25])) as (b & Hrun & Hb).
  { eexists. split.
    - unfold create_sample_data, initial_state, stream_hist, stream_sizes,
        stream_colors, stream_noise, stream_x.
      run.
    - unfold stream_hist, stream_sizes, stream_colors, stream_noise, stream_x.
      cbn [foldl fst snd]. repeat split; reflexivity. }
  pose proof (generator_run (rk_seed 0) ∅ [] [] [] []) as Hgen.
  unfold returns, initial_state in Hrun, Hgen.
  rewrite Hrun in Hgen.
  apply (f_equal (λ r : (exn + nat) * state G,
           heap r.2 !! fresh (dom (∅ : gmap nat (gmap string pyobj))))) in Hgen.
  cbn [snd heap] in Hgen. rewrite !lookup_insert_eq in Hgen.
  injection Hgen as <-. exact Hb.
Qed.

(** ** The charts of the bundle *)

Lemma axes_of_last F fg k cs :
  fig_axes fg !! k = Some cs → axes_of (F ++ [fg]) (length F) k = cs.
Proof.
  intros Hk. unfold axes_of. rewrite list_lookup_middle by done.
  cbn. by rewrite Hk.
Qed.

Lemma axes_of_single F fg cs :
  fig_axes fg = [cs] → axes_of (F ++ [fg]) (length F) 0 = cs.
Proof. intros Hcs. apply axes_of_last. by rewrite Hcs. Qed.

Lemma pie_chart_returns d b sizes labels g h F o w sh :
  h !! d = Some b →
  b !! "pie_sizes" = Some (PyInts sizes) → b !! "pie_labels" = Some (PyStrs labels) →
  sizes = [30; 25; 20; 25] →
  labels = ["Chocolate"; "Vanilla"; "Strawberry"; "Mint"]%string →
  ∃ fg, returns (create_pie_chart d) (State g h F o w sh) (length F)
          (State g h (F ++ [fg]) o w sh) ∧
        ∃ cs, fig_axes fg = [cs] ∧
          wedge_label <$> wedges_of cs = labels ∧
          wedge_autotext <$> wedges_of cs =
            ["30.0%"; "25.0%"; "20.0%"; "25.0%"]%string.
Proof.
  intros Hd Hs Hl -> ->. eexists. split.
  - unfold create_pie_chart. run.
  - eexists. split; [reflexivity|]. by vm_compute.
Qed.

Lemma generator_returns s :
  ∃ d s', returns create_sample_data s d s' ∧
          heap s' !! d = Some sample_bundle ∧ rng s' = snd stream_hist.
Proof.
  destruct s as [g h F o w sh]. do 2 eexists.
  split; [apply generator_run|]. cbn. by rewrite lookup_insert_eq.
Qed.

(** C1. Every call of the data generator returns a bundle whose
    collections have the lengths 100 ([x_line], [y_sin], [y_cos]),
    50 ([x_scatter], [y_scatter], [colors_scatter], [sizes_scatter]),
    5 ([categories], [values]), 1000 ([hist_data]) and 4 ([pie_labels],
    [pie_sizes]). *)
Theorem create_sample_data_lengths s :
  ∃ d s' b,
    returns create_sample_data s d s' ∧ heap s' !! d = Some b ∧
    bundle_len b "x_line" = Some 100%nat ∧
    bundle_len b "y_sin" = Some 100%nat ∧
    bundle_len b "y_cos" = Some 100%nat ∧
    bundle_len b "x_scatter" = Some 50%nat ∧
    bundle_len b "y_scatter" = Some 50%nat ∧
    bundle_len b "colors_scatter" = Some 50%nat ∧
    bundle_len b "sizes_scatter" = Some 50%nat ∧
    bundle_len b "categories" = Some 5%nat ∧
    bundle_len b "values" = Some 5%nat ∧
    bundle_len b "hist_data" = Some 1000%nat ∧
    bundle_len b "pie_labels" = Some 4%nat ∧
    bundle_len b "pie_sizes" = Some 4%nat.
Proof.
  destruct (generator_returns s) as (d & s' & Hrun & Hd & _).
  exists d, s', sample_bundle. split; [done|]. split; [done|].
  destruct sample_bundle_contents
    as (Hxl & Hys & Hyc & Hxs & Hy & Hc & Hsz & Hcat & Hv & Hh & Hpl & Hps).
  unfold bundle_len.
  rewrite Hxl, Hys, Hyc, Hxs, Hy, Hc, Hsz, Hcat, Hv, Hh, Hpl, Hps.
  cbn [mbind option_bind].
  rewrite length_zip_with, !length_fmap, length_linspace.
  unfold stream_hist, stream_sizes, stream_colors, stream_noise, stream_x.
  rewrite !length_draws. repeat split; reflexivity.
Qed.

Lemma dict_of_run_returns (m : M G nat) s d s' :
  returns m s d s' → dict_of_run (m s) = heap s' !! d ∧ (m s).2 = s'.
Proof. unfold returns, dict_of_run. intros ->. done. Qed.

Lemma generator_outcome s :
  dict_of_run (create_sample_data s) = Some sample_bundle ∧
  rng (create_sample_data s).2 = snd stream_hist.
Proof.
  destruct (generator_returns s) as (d & s' & Hrun & Hd & Hg).
  destruct (dict_of_run_returns _ _ _ _ Hrun) as [-> ->]. by split.
Qed.

(** C2. The generator seeds the random source with 42 before it draws:
    its first draws are the first numbers of the stream seeded with 42.
    So any two calls, from any two states, build the same bundle and
    leave the generator in the same state. *)
Theorem create_sample_data_deterministic s1 s2 :
  ∃ b,
    dict_of_run (create_sample_data s1) = Some b ∧
    dict_of_run (create_sample_data s2) = Some b ∧
    rng (create_sample_data s1).2 = rng (create_sample_data s2).2 ∧
    b !! "x_scatter" = Some (PyArr (draws rk_gauss 50 (rk_seed 42)).1).
Proof.
  exists sample_bundle.
  destruct (generator_outcome s1) as [Hb1 Hg1].
  destruct (generator_outcome s2) as [Hb2 Hg2].
  split; [exact Hb1|]. split; [exact Hb2|].
  split; [exact (eq_trans Hg1 (eq_sym Hg2))|].
  destruct sample_bundle_contents as (_ & _ & _ & Hxs & _).
  rewrite Hxs. unfold stream_x. reflexivity.
Qed.

(** C9. In the bundle, [y_scatter[i] = 2 * x_scatter[i] + n[i]] for
    every [i < 50], where [x_scatter] is the first fifty normal draws of
    the stream seeded with 42 and [n] the fifty normal draws that
    follow them. *)
Theorem scatter_linear_relation s :
  let x := (draws rk_gauss 50 (rk_seed 42)).1 in
  let n := (draws rk_gauss 50 (draws rk_gauss 50 (rk_seed 42)).2).1 in
  ∃ d s' b y,
    returns create_sample_data s d s' ∧ heap s' !! d = Some b ∧
    b !! "x_scatter" = Some (PyArr x) ∧ b !! "y_scatter" = Some (PyArr y) ∧
    length x = 50%nat ∧ length n = 50%nat ∧ length y = 50%nat ∧
    ∀ i, (i < 50)%nat →
      ∃ xi ni, x !! i = Some xi ∧ n !! i = Some ni ∧
               y !! i = Some (2 * xi + ni)%float.
Proof.
  intros x n. subst x n.
  destruct (generator_returns s) as (d & s' & Hrun & Hd & _).
  destruct sample_bundle_contents as (_ & _ & _ & Hxs & Hy & _).
  exists d, s', sample_bundle. eexists.
  split; [exact Hrun|]. split; [exact Hd|].
  split; [rewrite Hxs; unfold stream_x; reflexivity|].
  split; [rewrite Hy; unfold stream_noise, stream_x; reflexivity|].
  split; [apply length_draws|]. split; [apply length_draws|].
  split; [rewrite length_zip_with, length_fmap, !length_draws; reflexivity|].
  intros i Hi.
  destruct (lookup_lt_is_Some_2 (draws rk_gauss 50 (rk_seed 42)).1 i)
    as [xi Hxi]; [rewrite length_draws; exact Hi|].
  destruct (lookup_lt_is_Some_2
              (draws rk_gauss 50 (draws rk_gauss 50 (rk_seed 42)).2).1 i)
    as [ni Hni]; [rewrite length_draws; exact Hi|].
  exists xi, ni. split; [exact Hxi|]. split; [exact Hni|].
  rewrite lookup_zip_with, list_lookup_fmap, Hxi, Hni. reflexivity.
Qed.

Lemma sum_sample_sizes : foldr Z.add 0 [30; 25; 20; 25] = 100.
Proof. reflexivity. Qed.

(** C4. On the bundle, whose pie sizes are [30, 25, 20, 25] and sum to
    100, the percentage text of every wedge is [100 * size / sum] to
    one decimal place followed by a percent sign: 30.0%, 25.0%, 20.0%
    and 25.0%. *)
Theorem pie_percentage_labels s d :
  heap s !! d = Some sample_bundle →
  ∃ fig s' sizes,
    returns (create_pie_chart d) s fig s' ∧
    sample_bundle !! "pie_sizes" = Some (PyInts sizes) ∧
    sizes = [30; 25; 20; 25] ∧ foldr Z.add 0 sizes = 100 ∧
    wedge_autotext <$> wedges_of (axes_of (figs s') fig 0) =
      (λ v, Str.format_ratio 1 (100 * v) (foldr Z.add 0 sizes) +:+ "%") <$> sizes ∧
    wedge_autotext <$> wedges_of (axes_of (figs s') fig 0) =
      ["30.0%"; "25.0%"; "20.0%"; "25.0%"]%string.
Proof.
  intros Hd. destruct s as [g h F o w sh]. cbn [heap] in Hd.
  destruct sample_bundle_contents as (_&_&_&_&_&_&_&_&_&_& Hl & Hs).
  destruct (pie_chart_returns d _ _ _ g h F o w sh Hd Hs Hl eq_refl eq_refl)
    as (fg & Hrun & cs & Hcs & _ & Htexts).
  exists (length F), (State g h (F ++ [fg]) o w sh), [30; 25; 20; 25].
  split; [exact Hrun|]. split; [exact Hs|]. split; [reflexivity|].
  split; [reflexivity|].
  cbn [figs]. rewrite (axes_of_single F fg cs Hcs).
  rewrite Htexts. split; reflexivity.
Qed.

(** C5. On the bundle, whose values are [23, 45, 56, 78, 32], the text
    written over bar [i] of the bar chart reads, as an integer, the
    value [values[i]]; it stands over the middle of the bar, one unit
    above its top, and the height of the bar is the value. *)
Theorem bar_value_annotations s d :
  heap s !! d = Some sample_bundle →
  ∃ fig s' vals,
    returns (create_bar_chart d) s fig s' ∧
    sample_bundle !! "values" = Some (PyInts vals) ∧
    vals = [23; 45; 56; 78; 32] ∧
    let cs := axes_of (figs s') fig 0 in
    (λ t, Str.to_int (text_str t)) <$> texts_of cs = Some <$> vals ∧
    (λ r, Np.truncZ (rect_height r)) <$> bars_of cs = Some <$> vals ∧
    (λ t, (text_x t, text_y t)) <$> texts_of cs =
      (λ r, (rect_x r + rect_width r / 2, rect_height r + 1)%float)
        <$> bars_of cs.
Proof.
  intros Hd. destruct s as [g h F o w sh]. cbn [heap] in Hd.
  destruct sample_bundle_contents as (_&_&_&_&_&_&_& Hc & Hv & _).
  destruct (bar_chart_returns d _ _ _ g h F o w sh Hd Hc Hv eq_refl eq_refl)
    as (fg & Hrun & cs & Hcs & Htexts & Hpos & Hheights).
  exists (length F), (State g h (F ++ [fg]) o w sh), [23; 45; 56; 78; 32].
  split; [exact Hrun|]. split; [exact Hv|]. split; [reflexivity|].
  cbn [figs]. rewrite (axes_of_single F fg cs Hcs).
  split; [|split; [|exact Hpos]].
  - rewrite (list_fmap_compose text_str Str.to_int), Htexts. reflexivity.
  - rewrite (list_fmap_compose rect_height Np.truncZ), Hheights. reflexivity.
Qed.

(** C8. For the bundle that the generator returned, in any state in
    which the bundle is as it was returned, each chart builder that
    takes the bundle (line plot, scatter plot, bar chart, histogram,
    pie chart) returns a figure of the registry, without raising, and
    leaves the heap, hence every array and list of the bundle, as it
    was. *)
Theorem bundle_builders_frame (c : bundle_chart) s0 d s1 s :
  returns create_sample_data s0 d s1 →
  heap s !! d = heap s1 !! d →
  ∃ fig s',
    returns (bundle_builder c d) s fig s' ∧ is_Some (figs s' !! fig) ∧
    heap s' = heap s ∧ heap s' !! d = heap s1 !! d.
Proof.
  intros Hgen Hsame.
  destruct (generator_returns s0) as (d' & s1' & Hgen' & Hd' & _).
  destruct (returns_inj _ _ _ _ _ _ Hgen Hgen') as [-> ->].
  rewrite Hd' in Hsame |- *.
  destruct s as [g h F o w sh]. cbn [heap] in Hsame.
  destruct sample_bundle_contents
    as (Hxl & Hys & Hyc & Hxs & Hy & Hc & Hsz & Hcat & Hv & Hh & Hpl & Hps).
  assert (∃ fg, returns (bundle_builder c d') (State g h F o w sh) (length F)
                  (State g h (F ++ [fg]) o w sh)) as [fg Hrun].
  { destruct c; cbn [bundle_builder].
    - eapply line_plot_returns; [exact Hsame|exact Hxl|exact Hys|exact Hyc|..];
        rewrite length_fmap; reflexivity.
    - eapply scatter_plot_returns;
        [exact Hsame|exact Hxs|exact Hy|exact Hc|exact Hsz|].
      unfold stream_noise, stream_x.
      rewrite length_zip_with, length_fmap, !length_draws. reflexivity.
    - destruct (bar_chart_returns d' _ _ _ g h F o w sh Hsame Hcat Hv
                  eq_refl eq_refl) as (fg & Hrun & _).
      exists fg. exact Hrun.
    - eapply histogram_returns; [exact Hsame|exact Hh].
    - destruct (pie_chart_returns d' _ _ _ g h F o w sh Hsame Hps Hpl
                  eq_refl eq_refl) as (fg & Hrun & _).
      exists fg. exact Hrun. }
  exists (length F), (State g h (F ++ [fg]) o w sh).
  split; [exact Hrun|]. cbn [figs heap].
  split; [rewrite list_lookup_middle by reflexivity; by eexists|].
  split; [reflexivity|exact Hsame].
Qed.

(** ** The charts that make their own data *)

Lemma subplot_grid_returns g h F o w sh :
  let x := draws rk_gauss 50 g in
  let y := draws rk_gauss 50 (snd x) in
  ∃ fg, returns create_subplot_grid (State g h F o w sh) (length F)
          (State (snd y) h (F ++ [fg]) o w sh) ∧
        ∃ a0 a1 a2 a3, fig_axes fg = [a0; a1; a2; a3] ∧
          scatters_of a2 = [(fst x, fst y)] ∧
          steps_of a3 =
            zip (Np.linspace 0 10 100)
              ((λ v, Np.remainder (Np.floor v) 2) <$> Np.linspace 0 10 100).
Proof.
  intros x y. subst x y. eexists. split.
  - unfold create_subplot_grid. run.
  - do 4 eexists. split; [reflexivity|]. split; reflexivity.
Qed.

(** The step function of the grid, in exact arithmetic: at the [i]-th of
    the hundred points [10 i / 99] its value is [floor (10 i / 99) mod 2]. *)
Lemma step_values_exact :
  (λ v, Np.remainder (Np.floor v) 2) <$> Np.linspace 0 10 100 =
  (λ i : nat, Np.of_Z ((10 * Z.of_nat i / 99) mod 2)) <$> seq 0 100.
Proof. vm_compute. reflexivity. Qed.

Lemma zero_or_one_mod2 (z : Z) :
  Np.of_Z (z mod 2) = 0%float ∨ Np.of_Z (z mod 2) = 1%float.
Proof.
  pose proof (Z.mod_pos_bound z 2 eq_refl) as Hb.
  assert (z mod 2 = 0 ∨ z mod 2 = 1) as [-> | ->] by lia;
    [left|right]; reflexivity.
Qed.

(** C7. The bottom-right panel of the subplot grid is a step line over
    the hundred points of [np.linspace(0, 10, 100)], from 0 to 10, whose
    value at each point [x] is [floor(x) mod 2]; these values are those
    of the exact step function at [10 i / 99], and each one is 0 or 1. *)
Theorem step_panel_values s :
  ∃ fig s',
    returns create_subplot_grid s fig s' ∧
    let pts := steps_of (axes_of (figs s') fig 3) in
    length pts = 100%nat ∧
    pts.*1 = Np.linspace 0 10 100 ∧
    head pts.*1 = Some 0%float ∧ last pts.*1 = Some 10%float ∧
    pts.*2 = (λ x, Np.remainder (Np.floor x) 2) <$> pts.*1 ∧
    pts.*2 = (λ i : nat, Np.of_Z ((10 * Z.of_nat i / 99) mod 2)) <$> seq 0 100 ∧
    Forall (λ y, y = 0%float ∨ y = 1%float) pts.*2.
Proof.
  destruct s as [g h F o w sh].
  destruct (subplot_grid_returns g h F o w sh)
    as (fg & Hrun & a0 & a1 & a2 & a3 & Hax & _ & Hsteps).
  do 2 eexists. split; [exact Hrun|]. cbn [figs].
  rewrite (axes_of_last F fg 3 a3) by (rewrite Hax; reflexivity).
  rewrite Hsteps. cbv zeta.
  assert (length (Np.linspace 0 10 100) =
          length ((λ v, Np.remainder (Np.floor v) 2) <$> Np.linspace 0 10 100))
    as Hlen by (rewrite length_fmap; reflexivity).
  rewrite fst_zip by (rewrite Hlen; reflexivity).
  rewrite snd_zip by (rewrite Hlen; reflexivity).
  split; [rewrite length_zip_with, <- Hlen, Nat.min_id; apply length_linspace|].
  split; [reflexivity|].
  split; [vm_compute; reflexivity|]. split; [vm_compute; reflexivity|].
  split; [reflexivity|]. split; [exact step_values_exact|].
  rewrite step_values_exact. apply Forall_fmap, Forall_forall.
  intros i _. apply zero_or_one_mod2.
Qed.

Lemma advanced_plot_returns g h F o w sh :
  let x := Np.linspace 0 10 200 in
  ∃ fg, returns create_advanced_plot (State g h F o w sh) (length F)
          (State g h (F ++ [fg]) o w sh) ∧
        ∃ cs, fig_axes fg = [cs] ∧
          lines_of cs = [(x, damped_sine <$> x); (x, damped_cosine <$> x)] ∧
          arrows_of cs = [("Maximum Point"%string, arrow_target)].
Proof.
  intros x. subst x. eexists. split.
  - unfold create_advanced_plot. run.
  - eexists. split; [reflexivity|]. split; reflexivity.
Qed.

(** ** The whole run *)

Lemma bind_run {A B} (m : M G A) (k : A → M G B) s a s1 :
  returns m s a s1 → (m ≫= k) s = k a s1.
Proof. unfold returns, mbind, M_bind. intros ->. reflexivity. Qed.

(** The state in which [main] is started matters through everything but
    the state of the random generator: the first thing drawn from is
    the stream seeded by [create_sample_data]. *)
Lemma main_ignores_rng g1 g2 h F o w sh :
  main (State g1 h F o w sh) = main (State g2 h F o w sh).
Proof.
  unfold main.
  rewrite (bind_run _ _ _ _ _ (returns_print _ g1 h F o w sh)).
  rewrite (bind_run _ _ _ _ _ (returns_print _ g2 h F o w sh)).
  rewrite (bind_run _ _ _ _ _ (generator_run g1 h F _ w sh)).
  rewrite (bind_run _ _ _ _ _ (generator_run g2 h F _ w sh)).
  reflexivity.
Qed.

(** C10. Two complete runs of [main], whatever the states of the random
    generator they start with, have the same outcome; in particular the
    random scatter panel of the subplot grid holds the same two vectors
    of fifty numbers: the hundred normal draws that follow, in the
    stream seeded with 42, the 1200 draws of the data generator (the
    builders of the bundle draw nothing). *)
Theorem grid_scatter_deterministic g1 g2 :
  main (initial_state g1) = main (initial_state g2) ∧
  let x := draws rk_gauss 50 (snd stream_hist) in
  let y := draws rk_gauss 50 (snd x) in
  length (fst x) = 50%nat ∧ length (fst y) = 50%nat ∧
  scatters_of (axes_of (figs (main (initial_state g1)).2) 5 2) = [(fst x, fst y)] ∧
  scatters_of (axes_of (figs (main (initial_state g2)).2) 5 2) = [(fst x, fst y)].
Proof.
  split; [apply main_ignores_rng|].
  cbv zeta. split; [apply length_draws|]. split; [apply length_draws|].
  rewrite (main_ignores_rng g2 g1 ∅ [] [] [] [] : main (initial_state g2) = _).
  assert (scatters_of (axes_of (figs (main (initial_state g1)).2) 5 2) =
          [((draws rk_gauss 50 stream_hist.2).1,
            (draws rk_gauss 50 (draws rk_gauss 50 stream_hist.2).2).1)]) as Hs
    by (vm_compute; reflexivity).
  split; exact Hs.
Qed.

(** C3. One run of [main] in a fresh interpreter ends without an
    exception and writes exactly seven files, one for each of the seven
    figures and in the order of the charts; their names are the display
    names of the charts in lower case with underscores for spaces and
    [.png] appended, all different, and each file is saved with 300 DPI
    and a tight bounding box. *)
Theorem main_saves_seven_files g :
  let names := ["Line Plot"; "Scatter Plot"; "Bar Chart"; "Histogram";
                "Pie Chart"; "Subplot Grid"; "Advanced Plot"]%string in
  let r := main (initial_state g) in
  r.1 = inr () ∧
  length (figs r.2) = 7%nat ∧
  save_name <$> files r.2 = plot_filename <$> names ∧
  save_name <$> files r.2 =
    ["line_plot.png"; "scatter_plot.png"; "bar_chart.png"; "histogram.png";
     "pie_chart.png"; "subplot_grid.png"; "advanced_plot.png"]%string ∧
  NoDup (save_name <$> files r.2) ∧
  save_fig <$> files r.2 = seq 0 7 ∧
  Forall (λ f, save_dpi f = 300 ∧ save_bbox f = "tight"%string) (files r.2).
Proof.
  cbv zeta.
  assert (files (main (initial_state g)).2 =
          (λ '(n, f), {| save_name := n; save_fig := f;
                         save_dpi := 300; save_bbox := "tight" |}) <$>
          zip ["line_plot.png"; "scatter_plot.png"; "bar_chart.png";
               "histogram.png"; "pie_chart.png"; "subplot_grid.png";
               "advanced_plot.png"]%string (seq 0 7)) as ->
    by (vm_compute; reflexivity).
  split; [vm_compute; reflexivity|]. split; [vm_compute; reflexivity|].
  split; [vm_compute; reflexivity|]. split; [vm_compute; reflexivity|].
  split; [apply (bool_decide_unpack _); vm_compute; reflexivity|].
  split; [vm_compute; reflexivity|].
  cbn. repeat constructor.
Qed.

(** * Further properties of the script *)

(** ** Exceptions *)

(** [raises m s e s']: from state [s] the computation [m] raises [e],
    leaving the state [s']. *)
Definition raises {A} (m : M G A) s (e : exn) s' : Prop := m s = (inl e, s').

Lemma raises_bind {A B} (m : M G A) (k : A → M G B) s e s' :
  raises m s e s' → raises (m ≫= k) s e s'.
Proof. unfold raises, mbind, M_bind. intros ->. reflexivity. Qed.

Lemma raises_after {A B} (m : M G A) (k : A → M G B) s a s1 e s2 :
  returns m s a s1 → raises (k a) s1 e s2 → raises (m ≫= k) s e s2.
Proof. unfold returns, raises, mbind, M_bind. intros -> Hk. exact Hk. Qed.

Lemma raises_dict_get d k b g h F o w sh :
  h !! d = Some b → b !! k = None →
  raises (dict_get d k) (State g h F o w sh) (KeyError k) (State g h F o w sh).
Proof.
  intros Hd Hk. unfold raises, dict_get, mbind, M_bind, get_state. cbn.
  rewrite Hd, Hk. reflexivity.
Qed.

Lemma raises_data_array d k b g h F o w sh :
  h !! d = Some b → b !! k = None →
  raises (data_array d k) (State g h F o w sh) (KeyError k) (State g h F o w sh).
Proof. intros Hd Hk. apply raises_bind. by eapply raises_dict_get. Qed.

(** A builder of the bundle handed a dict without the key it reads first
    raises [KeyError] for that key.  By then it has created its figure:
    an empty figure stays behind in the registry; nothing else has
    changed. *)
Theorem missing_key_raises (c : bundle_chart) s d b :
  heap s !! d = Some b → b !! first_key c = None →
  raises (bundle_builder c d) s (KeyError (first_key c))
    (State (rng s) (heap s) (figs s ++ [empty_figure (chart_size c) 1])
       (stdout s) (files s) (shown s)).
Proof.
  intros Hd Hk. destruct s as [g h F o w sh]. cbn [rng heap figs stdout files shown] in *.
  destruct c; cbn [bundle_builder first_key chart_size] in *.
  - unfold create_line_plot.
    eapply raises_after; [apply returns_subplots_single|]. cbv beta iota.
    apply raises_bind. by eapply raises_data_array.
  - unfold create_scatter_plot.
    eapply raises_after; [apply returns_subplots_single|]. cbv beta iota.
    apply raises_bind. by eapply raises_data_array.
  - unfold create_bar_chart.
    eapply raises_after; [apply returns_subplots_single|]. cbv beta iota.
    apply raises_bind, raises_bind. by eapply raises_dict_get.
  - unfold create_histogram.
    eapply raises_after; [apply returns_subplots_single|]. cbv beta iota.
    apply raises_bind. by eapply raises_data_array.
  - unfold create_pie_chart.
    eapply raises_after; [apply returns_subplots_single|]. cbv beta iota zeta.
    apply raises_bind. by eapply raises_dict_get.
Qed.

(** ** The generator makes a new dict *)

(** Two calls of the generator in a row return two different dicts, each
    holding the bundle: the second call does not touch the first bundle,
    nor any dict that was there before, nor the figures, the output or
    the files. *)
Theorem create_sample_data_twice s :
  ∃ d1 s1 d2 s2,
    returns create_sample_data s d1 s1 ∧ returns create_sample_data s1 d2 s2 ∧
    heap s !! d1 = None ∧ d1 ≠ d2 ∧
    heap s2 !! d1 = Some sample_bundle ∧ heap s2 !! d2 = Some sample_bundle ∧
    (∀ d, is_Some (heap s !! d) → heap s2 !! d = heap s !! d) ∧
    figs s2 = figs s ∧ stdout s2 = stdout s ∧ files s2 = files s ∧
    shown s2 = shown s.
Proof.
  destruct s as [g h F o w sh].
  set (d1 := fresh (dom h)).
  set (h1 := <[d1 := sample_bundle]> h).
  set (d2 := fresh (dom h1)).
  assert (h !! d1 = None) as Hd1 by apply not_elem_of_dom, is_fresh.
  assert (h1 !! d2 = None) as Hd2 by apply not_elem_of_dom, is_fresh.
  assert (d1 ≠ d2) as Hne.
  { intros Heq. rewrite <- Heq in Hd2. unfold h1 in Hd2.
    by rewrite lookup_insert_eq in Hd2. }
  exists d1, (State (snd stream_hist) h1 F o w sh),
         d2, (State (snd stream_hist) (<[d2 := sample_bundle]> h1) F o w sh).
  split; [apply generator_run|]. split; [apply generator_run|].
  cbn [heap figs stdout files shown].
  split; [exact Hd1|]. split; [exact Hne|].
  split; [unfold h1; rewrite lookup_insert_ne by done; apply lookup_insert_eq|].
  split; [apply lookup_insert_eq|].
  split; [|by repeat split].
  intros d [x Hx].
  assert (d ≠ d1) by (intros ->; congruence).
  assert (d ≠ d2).
  { intros ->. unfold h1 in Hd2. rewrite lookup_insert_ne in Hd2 by done. congruence. }
  unfold h1. by rewrite !lookup_insert_ne.
Qed.

(** ** The bar chart, for any categories and heights *)








(** ** The other charts, for any data *)



(** The subplot grid never raises.  It takes exactly a hundred normal
    numbers from the generator, in whatever state the generator is: the
    fifty abscissas of its scatter panel, then the fifty ordinates.  It
    adds one figure of four panels with the tight layout, and changes
    neither the figures that were there nor the heap. *)
Theorem subplot_grid_draws_hundred s :
  let x := draws rk_gauss 50 (rng s) in
  let y := draws rk_gauss 50 (snd x) in
  ∃ fig s' fg,
    returns create_subplot_grid s fig s' ∧
    fig = length (figs s) ∧ figs s' = figs s ++ [fg] ∧
    rng s' = snd y ∧
    scatters_of (axes_of (figs s') fig 2) = [(fst x, fst y)] ∧
    length (fst x) = 50%nat ∧ length (fst y) = 50%nat ∧
    length (fig_axes fg) = 4%nat ∧ fig_tight fg = true ∧
    fig_suptitle fg =
      Some ("Subplot Grid Example",
            [("fontsize", KInt 20); ("fontweight", KStr "bold")])%string ∧
    heap s' = heap s ∧ stdout s' = stdout s ∧ files s' = files s.
Proof.
  intros x y. subst x y. destruct s as [g h F o w sh].
  eexists (length F), _, _. split.
  - unfold create_subplot_grid. run.
  - cbn [figs heap rng stdout files]. erewrite axes_of_last by reflexivity.
    rewrite !length_draws. repeat split; reflexivity.
Qed.

(** The annotated plot never raises and draws nothing from the generator.
    It adds one figure with the two damped curves over the 200 points of
    [np.linspace(0, 10, 200)], the region between them, the arrow, and
    the limits [[0, 10]] and [[-1, 1]] of the axes. *)
Theorem advanced_plot_contents s :
  let x := Np.linspace 0 10 200 in
  ∃ fig s' fg cs,
    returns create_advanced_plot s fig s' ∧
    fig = length (figs s) ∧ figs s' = figs s ++ [fg] ∧ fig_axes fg = [cs] ∧
    length x = 200%nat ∧
    lines_of cs = [(x, damped_sine <$> x); (x, damped_cosine <$> x)] ∧
    fills_of cs = [(x, damped_sine <$> x, damped_cosine <$> x)] ∧
    arrows_of cs = [("Maximum Point"%string, arrow_target)] ∧
    limits_of cs = [("x"%string, 0%float, 10%float);
                    ("y"%string, (-1)%float, 1%float)] ∧
    rng s' = rng s ∧ heap s' = heap s ∧ stdout s' = stdout s ∧ files s' = files s.
Proof.
  intros x. subst x. destruct s as [g h F o w sh].
  eexists (length F), _, _, _. split.
  - unfold create_advanced_plot. run.
  - cbn [figs heap rng stdout files]. rewrite length_linspace.
    repeat split; reflexivity.
Qed.

(** ** More on the bundle *)

(** A draw that is a function of a primitive draw gives, drawn [n] times,
    the image of [n] primitive draws, and leaves the generator where
    they leave it. *)
Lemma draws_image (prim : G → float * G) (f : float → float) n g :
  draws (λ g, (f (prim g).1, (prim g).2)) n g =
  (f <$> (draws prim n g).1, (draws prim n g).2).
Proof.
  revert g. induction n as [|n IH]; intros g; [reflexivity|].
  cbn [draws fst snd]. rewrite IH. reflexivity.
Qed.

(** In the bundle, [y_sin] and [y_cos] are the sine and the cosine of
    [x_line] point by point; the sizes of the scatter are [50 + 250 u]
    for the fifty uniform numbers [u] drawn after the colours, and the
    data of the histogram are [0 + 1 z] for the thousand normal numbers
    [z] drawn last. *)
Theorem bundle_derived_arrays :
  ∃ x_line y_sin y_cos sizes hist,
    sample_bundle !! "x_line" = Some (PyArr x_line) ∧
    sample_bundle !! "y_sin" = Some (PyArr y_sin) ∧
    sample_bundle !! "y_cos" = Some (PyArr y_cos) ∧
    sample_bundle !! "sizes_scatter" = Some (PyArr sizes) ∧
    sample_bundle !! "hist_data" = Some (PyArr hist) ∧
    x_line = Np.linspace 0 10 100 ∧
    (∀ i x, x_line !! i = Some x →
       y_sin !! i = Some (np_sin x) ∧ y_cos !! i = Some (np_cos x)) ∧
    sizes = (λ u, 50 + (300 - 50) * u)%float
              <$> (draws rk_double 50 (snd stream_colors)).1 ∧
    hist = (λ z, 0 + 1 * z)%float <$> (draws rk_gauss 1000 (snd stream_sizes)).1.
Proof.
  destruct sample_bundle_contents
    as (Hxl & Hys & Hyc & _ & _ & _ & Hsz & _ & _ & Hh & _).
  do 5 eexists.
  split; [exact Hxl|]. split; [exact Hys|]. split; [exact Hyc|].
  split; [exact Hsz|]. split; [exact Hh|]. split; [reflexivity|].
  split; [|split].
  - intros i x Hx. rewrite !list_lookup_fmap, Hx. split; reflexivity.
  - unfold stream_sizes, uniform_draw.
    rewrite (draws_image rk_double (λ u, 50 + (300 - 50) * u)%float).
    reflexivity.
  - unfold stream_hist, normal_draw.
    rewrite (draws_image rk_gauss (λ z, 0 + 1 * z)%float).
    reflexivity.
Qed.

(** The bundle has the twelve keys of the script and no other. *)
Theorem bundle_keys (k : string) :
  is_Some (sample_bundle !! k) ↔
  k ∈ ["x_line"; "y_sin"; "y_cos"; "x_scatter"; "y_scatter"; "colors_scatter";
       "sizes_scatter"; "categories"; "values"; "hist_data"; "pie_labels";
       "pie_sizes"]%string.
Proof.
  assert (dom sample_bundle =
          list_to_set
            ["x_line"; "y_sin"; "y_cos"; "x_scatter"; "y_scatter";
             "colors_scatter"; "sizes_scatter"; "categories"; "values";
             "hist_data"; "pie_labels"; "pie_sizes"]%string :> gset string) as Hdom
    by (vm_compute; reflexivity).
  rewrite <- elem_of_dom, Hdom. apply elem_of_list_to_set.
Qed.

(** ** What [main] prints and shows *)


(** ** File names *)



Lemma filename_char_lower (c : ascii) :
  Str.lower_char (Str.lower_char c) = Str.lower_char c.
Proof. destruct c as [[] [] [] [] [] [] [] []]; reflexivity. Qed.

Lemma filename_char_replace (c : ascii) :
  Str.lower_char (if Ascii.eqb c " " then "_"%char else c) =
  if Ascii.eqb (Str.lower_char c) " " then "_"%char else Str.lower_char c.
Proof. destruct c as [[] [] [] [] [] [] [] []]; reflexivity. Qed.

(** The file name does not tell apart display names that differ only in
    the case of their letters or in spaces against underscores: a name,
    its lower-case form and its form with underscores for spaces all get
    the same file.  So two charts can share a file, as ["Bar Chart"] and
    ["bar_chart"] would. *)
Theorem plot_filename_collisions (name : string) :
  plot_filename (Str.lower name) = plot_filename name ∧
  plot_filename (Str.replace " " "_" name) = plot_filename name ∧
  plot_filename "Bar Chart" = plot_filename "bar_chart".
Proof.
  unfold plot_filename. split; [|split; [|reflexivity]]; f_equal.
  - induction name as [|c name IH]; [reflexivity|].
    cbn [Str.lower Str.replace]. rewrite filename_char_lower. by f_equal.
  - induction name as [|c name IH]; [reflexivity|].
    cbn [Str.lower Str.replace]. rewrite filename_char_replace.
    f_equal; [|exact IH].
    destruct c as [[] [] [] [] [] [] [] []]; reflexivity.
Qed.

End Properties.

(** ** The annotated plot, read in the real numbers *)

Section AdvancedPlotReal.
Local Open Scope R_scope.

Lemma damped_sine_real (x : R) : damped_sine x = sin x * exp (- x / 5).
Proof. reflexivity. Qed.

Lemma arrow_target_real : arrow_target (T := R) = (PI / 2, exp (- PI / 10)).
Proof. reflexivity. Qed.

Lemma decay_rate_derivative (x : R) :
  derivable_pt_lim (fun t : R => - t / 5) x (- 1 / 5).
Proof.
  intros eps Heps. exists (mkposreal 1 Rlt_0_1). intros h Hh _.
  replace ((- (x + h) / 5 - - x / 5) / h - - 1 / 5) with 0 by (field; exact Hh).
  rewrite Rabs_R0. exact Heps.
Qed.

(** The slope of the damped sine. *)
Lemma damped_sine_derivative (x : R) :
  derivable_pt_lim damped_sine x
    (cos x * exp (- x / 5) + sin x * (exp (- x / 5) * (- 1 / 5))).
Proof.
  change (damped_sine (T := R))
    with (mult_fct sin (comp exp (fun t : R => - t / 5))).
  apply (derivable_pt_lim_mult sin (comp exp (fun t : R => - t / 5)) x
           (cos x) (exp (- x / 5) * (- 1 / 5)));
    [apply derivable_pt_lim_sin|].
  apply (derivable_pt_lim_comp (fun t : R => - t / 5) exp x
           (- 1 / 5) (exp (- x / 5))).
  - apply decay_rate_derivative.
  - apply derivable_pt_lim_exp.
Qed.

(** At [pi / 2] the damped sine goes down: its slope there is
    [- exp (- pi / 10) / 5]. *)
Lemma damped_sine_slope_at_target :
  derivable_pt_lim damped_sine (PI / 2) (- exp (- PI / 10) / 5).
Proof.
  pose proof (damped_sine_derivative (PI / 2)) as Hd.
  rewrite cos_PI2, sin_PI2 in Hd.
  replace (- (PI / 2) / 5) with (- PI / 10) in Hd by field.
  replace (- exp (- PI / 10) / 5)
    with (0 * exp (- PI / 10) + 1 * (exp (- PI / 10) * (- 1 / 5))) by field.
  exact Hd.
Qed.

(** C6. The point the arrow of the annotation "Maximum Point" ends at,
    [(pi / 2, exp (- pi / 10))], lies on the damped sine
    [sin x * exp (- x / 5)] within [[0, 10]], but the damped sine has no
    local maximum there: its slope at [pi / 2] is negative. *)
Theorem arrow_target_not_local_maximum :
  let p := arrow_target (T := R) in
  0 <= p.1 <= 10 ∧ p.2 = damped_sine p.1 ∧
  ¬ local_max_on 0 10 damped_sine p.1.
Proof.
  rewrite arrow_target_real. cbn [fst snd].
  pose proof PI2_1 as Hlo. pose proof PI_4 as Hhi.
  split; [lra|]. split.
  - rewrite damped_sine_real, sin_PI2, Rmult_1_l. f_equal. field.
  - intros [_ (eps & Heps & Hmax)].
    set (delta := Rmin eps 1).
    assert (0 < delta <= 1 ∧ delta <= eps) as (Hd0 & Hd1).
    { unfold delta. pose proof (Rmin_l eps 1). pose proof (Rmin_r eps 1).
      split; [split; [apply Rmin_glb_lt; lra|lra]|lra]. }
    pose (pr := exist (fun l => derivable_pt_abs damped_sine (PI / 2) l) _
                  damped_sine_slope_at_target : derivable_pt damped_sine (PI / 2)).
    assert (derive_pt damped_sine (PI / 2) pr = 0) as Hzero.
    { apply (deriv_maximum damped_sine (PI / 2 - delta) (PI / 2 + delta));
        [lra|lra|].
      intros x Hx1 Hx2. apply Hmax; [lra|].
      apply Rabs_def1; lra. }
    cbn [derive_pt pr proj1_sig] in Hzero.
    pose proof (exp_pos (- PI / 10)). lra.
Qed.

(** ** Where the curves run *)

Lemma damped_cosine_real (x : R) : damped_cosine x = cos x * exp (- x / 8).
Proof. reflexivity. Qed.

Lemma decay_factor_bounds (x k : R) : 0 <= x → 0 < k → 0 < exp (- x / k) <= 1.
Proof.
  intros Hx Hk. split; [apply exp_pos|].
  assert (- x / k <= 0) as Hneg.
  { unfold Rdiv. pose proof (Rinv_0_lt_compat k Hk). nra. }
  destruct Hneg as [Hlt | ->]; [|rewrite exp_0; lra].
  apply exp_increasing in Hlt. rewrite exp_0 in Hlt. lra.
Qed.

(** From 0 on, hence on the whole domain [[0, 10]] of the plot, both
    damped curves stay within the limits [[-1, 1]] that the script sets
    on the y axis. *)
Theorem damped_curves_within_limits (x : R) :
  0 <= x →
  -1 <= damped_sine x <= 1 ∧ -1 <= damped_cosine x <= 1.
Proof.
  intros Hx. rewrite damped_sine_real, damped_cosine_real.
  pose proof (SIN_bound x) as Hs. pose proof (COS_bound x) as Hc.
  pose proof (decay_factor_bounds x 5 Hx ltac:(lra)) as H5.
  pose proof (decay_factor_bounds x 8 Hx ltac:(lra)) as H8.
  split; split; nra.
Qed.

Lemma sin_five_cos_at_atan : sin (atan 5) = 5 * cos (atan 5) ∧ 0 < cos (atan 5).
Proof.
  pose proof (atan_bound 5) as [Hlo Hhi].
  assert (0 < cos (atan 5)) as Hcos by (apply cos_gt_0; lra).
  split; [|exact Hcos].
  pose proof (tan_atan 5) as Htan. unfold tan in Htan.
  apply (f_equal (fun t => t * cos (atan 5))) in Htan.
  rewrite <- Htan. field. lra.
Qed.

(** The damped sine is stationary at [atan 5], a point of the domain
    before the target [pi / 2] of the arrow, and it is strictly higher
    there than at the target. *)
Theorem damped_sine_higher_at_atan_five :
  0 <= atan 5 <= 10 ∧ atan 5 < PI / 2 ∧
  derivable_pt_lim damped_sine (atan 5) 0 ∧
  damped_sine (PI / 2) < damped_sine (atan 5).
Proof.
  pose proof (atan_bound 5) as [_ Hhi]. pose proof PI_4 as Hpi.
  assert (0 < atan 5) as Hpos.
  { rewrite <- atan_0. apply atan_increasing. lra. }
  destruct sin_five_cos_at_atan as [Hsin Hcos].
  split; [lra|]. split; [exact Hhi|]. split.
  - pose proof (damped_sine_derivative (atan 5)) as Hd.
    rewrite Hsin in Hd.
    replace 0 with (cos (atan 5) * exp (- atan 5 / 5) +
                    5 * cos (atan 5) * (exp (- atan 5 / 5) * (- 1 / 5))) by field.
    exact Hd.
  - destruct (MVT_cor2 damped_sine
                (fun x => cos x * exp (- x / 5) + sin x * (exp (- x / 5) * (- 1 / 5)))
                (atan 5) (PI / 2) Hhi
                (fun c _ => damped_sine_derivative c)) as (c & Hmvt & Hc1 & Hc2).
    assert (0 < cos c) as Hcc by (apply cos_gt_0; lra).
    assert (5 < tan c) as Htan.
    { rewrite <- (tan_atan 5) at 1. apply tan_increasing; lra. }
    assert (5 * cos c < sin c) as Hsc.
    { unfold tan in Htan. apply (Rmult_lt_compat_r (cos c)) in Htan; [|exact Hcc].
      replace (sin c / cos c * cos c) with (sin c) in Htan by (field; lra). lra. }
    pose proof (exp_pos (- c / 5)) as He.
    assert (cos c * exp (- c / 5) + sin c * (exp (- c / 5) * (- 1 / 5)) < 0) as Hneg
      by nra.
    assert (0 < PI / 2 - atan 5) as Hgap by lra.
    nra.
Qed.

End AdvancedPlotReal.

(** ** The numeric and string primitives on examples *)

Example floor_examples :
  Np.floor 2.5%float = 2%float ∧ Np.floor (-0.5)%float = (-1)%float ∧
  Np.floor 0.25%float = 0%float ∧ Np.floor 7%float = 7%float.
Proof. by vm_compute. Qed.

Example remainder_examples :
  Np.remainder 7%float 2%float = 1%float ∧
  Np.remainder (-1)%float 2%float = 1%float ∧
  Np.remainder 5.5%float 2%float = 1.5%float ∧
  Np.remainder 4%float 2%float = 0%float.
Proof. by vm_compute. Qed.

Example truncZ_examples :
  Np.truncZ 23%float = Some 23 ∧ Np.truncZ (-2.75)%float = Some (-2) ∧
  Np.truncZ infinity = None.
Proof. by vm_compute. Qed.

Example linspace_example :
  Np.linspace 0%float 1%float 5 =
  [0%float; 0.25%float; 0.5%float; 0.75%float; 1%float].
Proof. by vm_compute. Qed.

Example format_examples :
  Str.format_f 1 (Prim2SF 30%float) = "30.0"%string ∧
  Str.format_f 2 (Prim2SF (-0.125)%float) = "-0.12"%string ∧
  Str.format_f 2 (Prim2SF 0.375%float) = "0.38"%string ∧
  Str.format_f 1 (Prim2SF 0.04%float) = "0.0"%string ∧
  Str.format_f 2 (Prim2SF 12.005%float) = "12.01"%string.
Proof. by vm_compute. Qed.

Example filename_example :
  Str.replace " " "_" (Str.lower "Line Plot") = "line_plot"%string.
Proof. by vm_compute. Qed.

Example to_int_examples :
  Str.to_int "23" = Some 23 ∧ Str.to_int "-7" = Some (-7) ∧
  Str.to_int "2x" = None ∧ Str.to_int (Str.of_int 1024) = Some 1024.
Proof. by vm_compute. Qed.

Example percent_examples :
  Fmt.percent "%1.1f%%" (Prim2SF 12.34%float) = Some "12.3%"%string ∧
  Fmt.percent "%6.2f" (Prim2SF 3.14159%float) = Some "  3.14"%string ∧
  Fmt.percent "%d" (Prim2SF 1%float) = None ∧
  Fmt.percent "100%%" (Prim2SF 1%float) = None.
Proof. by vm_compute. Qed.

(** ** The theorems on a concrete run

    The script is run with the generator and the elementary functions of
    [Demo], from the fresh interpreter whose generator is in state 7. *)

Import Demo.

Definition demo_state : state Z := (create_sample_data (initial_state 7)).2.

Lemma pie_percentage_labels_witness :
  heap demo_state !! 0%nat = Some sample_bundle ∧
  ∃ fig s' sizes,
    returns (create_pie_chart 0) demo_state fig s' ∧
    sizes = [30; 25; 20; 25] ∧
    wedge_autotext <$> wedges_of (axes_of (figs s') fig 0) =
      ["30.0%"; "25.0%"; "20.0%"; "25.0%"]%string.
Proof.
  assert (heap demo_state !! 0%nat = Some sample_bundle) as Hd
    by (vm_compute; reflexivity).
  split; [exact Hd|].
  destruct (pie_percentage_labels demo_state 0 Hd)
    as (fig & s' & sizes & Hrun & _ & Hsz & _ & _ & Htexts).
  exists fig, s', sizes. split; [exact Hrun|]. split; [exact Hsz|exact Htexts].
Defined.

Lemma bar_value_annotations_witness :
  heap demo_state !! 0%nat = Some sample_bundle ∧
  ∃ fig s' vals,
    returns (create_bar_chart 0) demo_state fig s' ∧
    vals = [23; 45; 56; 78; 32] ∧
    (λ t, Str.to_int (text_str t)) <$> texts_of (axes_of (figs s') fig 0) =
      Some <$> vals.
Proof.
  assert (heap demo_state !! 0%nat = Some sample_bundle) as Hd
    by (vm_compute; reflexivity).
  split; [exact Hd|].
  destruct (bar_value_annotations demo_state 0 Hd)
    as (fig & s' & vals & Hrun & _ & Hv & Htexts & _).
  exists fig, s', vals. split; [exact Hrun|]. split; [exact Hv|exact Htexts].
Defined.

Lemma bundle_builders_frame_witness :
  create_sample_data (initial_state 7) = (inr 0%nat, demo_state) ∧
  ∃ fig s',
    returns (bundle_builder Histogram 0) demo_state fig s' ∧
    is_Some (figs s' !! fig) ∧ heap s' = heap demo_state.
Proof.
  assert (returns create_sample_data (initial_state 7) 0%nat demo_state) as Hgen
    by (vm_compute; reflexivity).
  split; [exact Hgen|].
  destruct (bundle_builders_frame Histogram (initial_state 7) 0 demo_state
              demo_state Hgen eq_refl)
    as (fig & s' & Hrun & Hfig & Hheap & _).
  exists fig, s'. split; [exact Hrun|]. split; [exact Hfig|exact Hheap].
Defined.

(** A small bundle of its own, in a registry that holds a figure already. *)
Definition small_bundle : gmap string pyobj :=
  {[ "categories" := PyStrs ["x"; "y"; "z"];
     "values" := PyArr [1.5; (-2.25); 7]%float;
     "x_scatter" := PyArr [0; 1]%float;
     "y_scatter" := PyArr [2; 3]%float;
     "colors_scatter" := PyArr [0.5; 0.25]%float;
     "sizes_scatter" := PyArr [60; 70]%float;
     "hist_data" := PyArr [1; 2; 4]%float ]}%string.

Definition small_state : state Z :=
  {| rng := 7; heap := {[ 5%nat := small_bundle ]};
     figs := [empty_figure (1, 1)%float 1]; stdout := []; files := [];
     shown := [] |}.

Lemma missing_key_raises_witness :
  heap small_state !! 5%nat = Some small_bundle ∧
  small_bundle !! first_key LinePlot = None ∧
  create_line_plot 5 small_state =
    (inl (KeyError "x_line"),
     State 7 {[ 5%nat := small_bundle ]}
       [empty_figure (1, 1)%float 1; empty_figure (10, 6)%float 1] [] [] []).
Proof.
  assert (heap small_state !! 5%nat = Some small_bundle) as Hd by reflexivity.
  assert (small_bundle !! first_key LinePlot = None) as Hk by reflexivity.
  split; [exact Hd|]. split; [exact Hk|].
  exact (missing_key_raises LinePlot small_state 5 small_bundle Hd Hk).
Defined.




Lemma damped_curves_within_limits_witness :
  (0 <= 1)%R ∧
  (-1 <= damped_sine 1 <= 1)%R ∧ (-1 <= damped_cosine 1 <= 1)%R.
Proof.
  assert (0 <= 1)%R as H01 by lra.
  split; [exact H01|]. exact (damped_curves_within_limits 1%R H01).
Defined.
